(** * Health_App: acquisition, normalisation and sync pipeline

    A shallow embedding of the health-sample pipeline of the mobile
    front end:

    - [src/health/healthTypes.ts]  the canonical sample model,
    - [src/api/types.ts]           the wire shapes of the ingest API,
    - [src/health/sync.ts]         [toIngestSamples], [uploadToBackend],
    - [src/health/healthProvider.ts]  [requestPermissions], [readLast24h]
      over the two platform connectors (HealthKit, Health Connect).

    Asynchronous functions are embedded as computations that log every
    call made to the outside (dynamic imports, native bridge calls, HTTP
    requests) and end either in a value or in a thrown error. *)

From Stdlib Require Import ZArith QArith Qround List String Ascii Bool Lia.
From Stdlib Require Import DecimalString Sorted.
Import ListNotations.

Local Open Scope Z_scope.

(* ===================================================================== *)
(** ** JavaScript values used by the pipeline *)
(* ===================================================================== *)

Module Js.

(** A JavaScript [number].  Finite values are kept as exact rationals
    (binary64 rounding and signed zeros are abstracted); [NaN] and the two
    infinities are kept because the code can produce them
    ([Number(undefined)], a division by zero). *)
Inductive number : Type :=
| Fin (q : Q)
| NaN
| Infinity (negative : bool).

Definition of_Z (z : Z) : number := Fin (inject_Z z).

(** [Number(x)] for a field that is either absent ([undefined]) or
    already a number. *)
Definition Number (x : option number) : number :=
  match x with
  | Some n => n
  | None => NaN
  end.

(** Truthiness of a number: [0] and [NaN] are falsy. *)
Definition truthy (x : number) : bool :=
  match x with
  | Fin q => negb (Qeq_bool q 0)
  | NaN => false
  | Infinity _ => true
  end.

(** Truthiness of an optional string: [undefined] and [""] are falsy. *)
Definition truthy_string (x : option string) : bool :=
  match x with
  | Some s => negb (String.eqb s EmptyString)
  | None => false
  end.

(** Truthiness of an optional boolean flag. *)
Definition truthy_flag (x : option bool) : bool :=
  match x with
  | Some b => b
  | None => false
  end.

(** [x * y] *)
Definition mul (x y : number) : number :=
  match x, y with
  | NaN, _ | _, NaN => NaN
  | Fin a, Fin b => Fin (a * b)
  | Fin a, Infinity s | Infinity s, Fin a =>
      match a ?= 0 with
      | Eq => NaN
      | Gt => Infinity s
      | Lt => Infinity (negb s)
      end
  | Infinity s, Infinity t => Infinity (xorb s t)
  end%Q.

(** [x / y]; a zero divisor yields an infinity (or [NaN] for [0 / 0]). *)
Definition div (x y : number) : number :=
  match x, y with
  | NaN, _ | _, NaN => NaN
  | Fin a, Fin b =>
      match b ?= 0 with
      | Eq => match a ?= 0 with
              | Eq => NaN
              | Gt => Infinity false
              | Lt => Infinity true
              end
      | _ => Fin (a / b)
      end
  | Fin _, Infinity _ => Fin 0
  | Infinity s, Fin b =>
      match b ?= 0 with
      | Lt => Infinity (negb s)
      | _ => Infinity s
      end
  | Infinity _, Infinity _ => NaN
  end%Q.

(** [x - y] *)
Definition sub (x y : number) : number :=
  match x, y with
  | NaN, _ | _, NaN => NaN
  | Fin a, Fin b => Fin (a - b)
  | Fin _, Infinity s => Infinity (negb s)
  | Infinity s, Fin _ => Infinity s
  | Infinity s, Infinity t => if Bool.eqb s t then NaN else Infinity s
  end%Q.

(** [Math.round(x)]: nearest integer, ties towards +Infinity. *)
Definition Math_round (x : number) : number :=
  match x with
  | Fin q => of_Z (Qfloor (q + (1 # 2)))
  | other => other
  end.

(** [Math.max(x, y)] *)
Definition Math_max (x y : number) : number :=
  match x, y with
  | NaN, _ | _, NaN => NaN
  | Infinity false, _ | _, Infinity false => Infinity false
  | Infinity true, other | other, Infinity true => other
  | Fin a, Fin b => if Qle_bool a b then Fin b else Fin a
  end.

(** [1 <= x] as a test on numbers ([NaN] compares false). *)
Definition ge_one (x : number) : bool :=
  match x with
  | Fin q => Qle_bool 1 q
  | NaN => false
  | Infinity negative => negb negative
  end.

(** A thrown value; [message] is what [e?.message] reads. *)
Record Error : Type := mkError { message : option string }.

(** How an evaluation completes, and how an awaited promise settles. *)
Inductive Outcome (A : Type) : Type :=
| Ok (a : A)
| Throw (e : Error).
Arguments Ok {A} a.
Arguments Throw {A} e.

(** An instant, in milliseconds since the epoch. *)
Definition Timestamp : Type := Z.

(** What a vendor record holds where a time stamp is expected, by what
    [new Date] makes of it: a value read as an instant (an ISO-8601
    string, a number of milliseconds), or nothing usable (the field is
    absent, or its text does not parse as a date). *)
Inductive TimeField : Type :=
| At (ms : Z)
| Unusable.

Coercion At : Z >-> TimeField.

(** [new Date(field)] *)
Record Date : Type := new_Date { built_from : TimeField }.

(** The largest time value a [Date] can hold. *)
Definition max_time : Z := 8640000000000000.

(** The time value of a date: a whole number of milliseconds within
    the range of [Date], or none: the date is an [Invalid Date]. *)
Definition time_value (d : Date) : option Z :=
  match built_from d with
  | At ms => if Z.abs ms <=? max_time then Some ms else None
  | Unusable => None
  end.

(** [d.getTime()]: [NaN] for an invalid date. *)
Definition getTime (d : Date) : number :=
  match time_value d with
  | Some ms => of_Z ms
  | None => NaN
  end.

(** [new Date(n)] for a number [n]: its integral part, if finite. *)
Definition Date_of_number (n : number) : Date :=
  new_Date
    match n with
    | Fin q => At (if Qle_bool 0 q then Qfloor q else Qceiling q)
    | _ => Unusable
    end.

Definition digit (n : Z) : ascii := ascii_of_nat (48 + Z.to_nat n).

(** [n] in decimal, on exactly [width] digits. *)
Fixpoint pad (width : nat) (n : Z) : string :=
  match width with
  | O => EmptyString
  | S w => pad w (n / 10) ++ String (digit (n mod 10)) EmptyString
  end%string.

(** Year, month and day of the proleptic Gregorian calendar for a day
    number counted from 1970-01-01. *)
Definition civil_from_days (days : Z) : Z * Z * Z :=
  let z := days + 719468 in
  let era := z / 146097 in
  let doe := z - era * 146097 in
  let yoe := (doe - doe / 1460 + doe / 36524 - doe / 146096) / 365 in
  let doy := doe - (365 * yoe + yoe / 4 - yoe / 100) in
  let mp := (5 * doy + 2) / 153 in
  let d := doy - (153 * mp + 2) / 5 + 1 in
  let m := if mp <? 10 then mp + 3 else mp - 9 in
  let y := yoe + era * 400 + (if m <=? 2 then 1 else 0) in
  (y, m, d).

Definition year_string (y : Z) : string :=
  if (0 <=? y) && (y <=? 9999) then pad 4 y
  else if y <? 0 then String "-" (pad 6 (- y))
  else String "+" (pad 6 y).

(** The ISO-8601 text of an instant: [YYYY-MM-DDTHH:mm:ss.sssZ] in UTC. *)
Definition iso_string (t : Timestamp) : string :=
  let '(y, m, dd) := civil_from_days (t / 86400000) in
  let ms := t mod 86400000 in
  (year_string y ++ "-" ++ pad 2 m ++ "-" ++ pad 2 dd ++ "T"
     ++ pad 2 (ms / 3600000) ++ ":" ++ pad 2 (ms / 60000 mod 60) ++ ":"
     ++ pad 2 (ms / 1000 mod 60) ++ "." ++ pad 3 (ms mod 1000) ++ "Z")%string.

(** The [RangeError] thrown for an invalid date (the wording of its
    message is the engine's). *)
Definition RangeError : Error := mkError (Some "Invalid time value"%string).

(** [Date.prototype.toISOString]: the ISO-8601 text of a valid date; an
    invalid date throws. *)
Definition toISOString (d : Date) : Outcome string :=
  match time_value d with
  | Some ms => Ok (iso_string ms)
  | None => Throw RangeError
  end.

End Js.

Import Js.

(* ===================================================================== *)
(** ** Asynchronous computations *)
(* ===================================================================== *)

Module Async.

(** An [async] function body: the calls it made to the outside, in the
    order they were issued, and how it settled. *)
Definition Eff (E A : Type) : Type := (list E * Outcome A)%type.

Definition ret {E A} (a : A) : Eff E A := ([], Ok a).

(** A step that calls nothing outside but may throw. *)
Definition step {E A} (completes : Outcome A) : Eff E A := ([], completes).

(** An outside call: it is logged and settles as the outside decides. *)
Definition call {E A} (ev : E) (settles : Outcome A) : Eff E A :=
  ([ev], settles).

(** [const x = await c; k x] *)
Definition bind {E A B} (c : Eff E A) (k : A -> Eff E B) : Eff E B :=
  match c with
  | (t, Ok a) => let (t', r) := k a in (t ++ t', r)
  | (t, Throw e) => (t, Throw e)
  end.

(** [try { c } catch (e) { h e }] *)
Definition try_catch {E A} (c : Eff E A) (h : Error -> Eff E A) : Eff E A :=
  match c with
  | (t, Ok a) => (t, Ok a)
  | (t, Throw e) => let (t', r) := h e in (t ++ t', r)
  end.

(** [Promise.all([c1, c2])]: both computations have been started; the
    join fulfils with both values, or rejects as soon as one of them
    rejects.  Which rejection wins is a matter of timing, which is not
    modelled: the first one in array order is taken. *)
Definition both {E A B} (c1 : Eff E A) (c2 : Eff E B) : Eff E (A * B) :=
  let (t1, r1) := c1 in
  let (t2, r2) := c2 in
  (t1 ++ t2,
   match r1, r2 with
   | Ok a, Ok b => Ok (a, b)
   | Throw e, _ => Throw e
   | Ok _, Throw e => Throw e
   end).

Definition trace {E A} (c : Eff E A) : list E := fst c.
Definition outcome {E A} (c : Eff E A) : Outcome A := snd c.

(** [l.map(f)] for a callback that may throw: the first throw ends the
    map. *)
Fixpoint map_throwing {A B} (f : A -> Outcome B) (l : list A)
  : Outcome (list B) :=
  match l with
  | [] => Ok []
  | a :: rest =>
      match f a with
      | Throw e => Throw e
      | Ok b =>
          match map_throwing f rest with
          | Ok bs => Ok (b :: bs)
          | Throw e => Throw e
          end
      end
  end.

(** [x ?? d] *)
Definition nullish {A} (x : option A) (d : A) : A :=
  match x with
  | Some a => a
  | None => d
  end.

End Async.

Import Async.

Declare Scope async_scope.
Delimit Scope async_scope with async.
Notation "x <- c ;; k" := (bind c (fun x => k))
  (at level 61, c at next level, right associativity) : async_scope.
Notation "' pat <- c ;; k" := (bind c (fun x => match x with pat => k end))
  (at level 61, pat pattern, c at next level, right associativity) : async_scope.
Notation "x ?? d" := (nullish x d) (at level 40, left associativity) : async_scope.

(* ===================================================================== *)
(** ** src/health/healthTypes.ts *)
(* ===================================================================== *)

Module HealthTypes.

Record HealthReadWindow : Type := { start : Date; end_ : Date }.

Inductive GlucoseSource : Type := cgm | manual.

Record BloodGlucoseData : Type := { mg_dl : number; source : GlucoseSource }.
Record HeartRateData : Type := { bpm : number }.
Record BloodPressureData : Type :=
  { systolic_mmhg : number; diastolic_mmhg : number }.
Record StepsData : Type := { spm : number; interval_minutes : number }.
Record ExerciseData : Type := { minutes : number }.
Record EcgData : Type :=
  { average_bpm : option number;
    classification : option string;
    sampling_hz : option number;
    voltage_samples : option (list (list number)) }.

(** The tagged union [HealthSample], one constructor per [type] tag. *)
Inductive HealthSample : Type :=
| BloodGlucoseSample (timestamp : Date) (data : BloodGlucoseData)
| HeartRateSample (timestamp : Date) (data : HeartRateData)
| BloodPressureSample (timestamp : Date) (data : BloodPressureData)
| StepsSample (timestamp : Date) (data : StepsData)
| ExerciseSample (timestamp : Date) (data : ExerciseData)
| EcgSample (timestamp : Date) (data : EcgData).

Record HealthReadResult : Type :=
  { samples : list HealthSample; unavailable : option string }.

End HealthTypes.

Import HealthTypes.

(* ===================================================================== *)
(** ** src/api/types.ts *)
(* ===================================================================== *)

Module ApiTypes.

Inductive StorageMode : Type := raw | aggregated | local_only.

Inductive SampleType : Type :=
| blood_glucose | heart_rate | blood_pressure | steps | exercise_minutes | ecg.

(** The [data] object of a wire sample: whichever data object the
    canonical sample carried. *)
Inductive SampleData : Type :=
| GlucoseObj (d : BloodGlucoseData)
| HeartRateObj (d : HeartRateData)
| BloodPressureObj (d : BloodPressureData)
| StepsObj (d : StepsData)
| ExerciseObj (d : ExerciseData)
| EcgObj (d : EcgData).

Record IngestSample : Type :=
  { type : SampleType;
    timestamp : string;
    end_time : option string;
    data : SampleData }.

Definition StorageMode_eqb (a b : StorageMode) : bool :=
  match a, b with
  | raw, raw | aggregated, aggregated | local_only, local_only => true
  | _, _ => false
  end.

End ApiTypes.

(* ===================================================================== *)
(** ** src/health/sync.ts *)
(* ===================================================================== *)

Module Sync.

Import ApiTypes.

Record IngestPayload : Type :=
  { user_id : string;
    storage_mode : StorageMode;
    payload_samples : list IngestSample }.

(** The body of the backend's answer, [res.data]. *)
Record PostResponse : Type := { inserted : Z }.

(** [api.post]: the HTTP client; the backend decides how a request
    settles (a non-2xx answer or a network failure rejects). *)
Record ApiClient : Type :=
  { post : string -> IngestPayload -> Outcome PostResponse }.

Inductive Call : Type :=
| Post (path : string) (payload : IngestPayload).

Definition timestamp_of (s : HealthSample) : Date :=
  match s with
  | BloodGlucoseSample t _ | HeartRateSample t _ | BloodPressureSample t _
  | StepsSample t _ | ExerciseSample t _ | EcgSample t _ => t
  end.

Definition toIngestSamples (samples : list HealthSample)
  : Outcome (list IngestSample) :=
  map_throwing
    (fun s =>
       match toISOString (timestamp_of s) with
       | Throw e => Throw e
       | Ok timestamp =>
           Ok match s with
              | BloodGlucoseSample _ d =>
                  {| type := blood_glucose; timestamp := timestamp;
                     end_time := None; data := GlucoseObj d |}
              | HeartRateSample _ d =>
                  {| type := heart_rate; timestamp := timestamp;
                     end_time := None; data := HeartRateObj d |}
              | BloodPressureSample _ d =>
                  {| type := blood_pressure; timestamp := timestamp;
                     end_time := None; data := BloodPressureObj d |}
              | StepsSample _ d =>
                  {| type := steps; timestamp := timestamp;
                     end_time := None; data := StepsObj d |}
              | ExerciseSample _ d =>
                  {| type := exercise_minutes; timestamp := timestamp;
                     end_time := None; data := ExerciseObj d |}
              | EcgSample _ d =>
                  {| type := ecg; timestamp := timestamp;
                     end_time := None; data := EcgObj d |}
              end
       end) samples.

Record UploadOpts : Type :=
  { userId : string;
    storageMode : StorageMode;
    opts_samples : list HealthSample }.

Record SyncResult : Type := { uploaded : Z; skipped : Z }.

Definition uploadToBackend (api : ApiClient) (opts : UploadOpts)
  : Eff Call SyncResult :=
  if StorageMode_eqb (storageMode opts) local_only then
    ret {| uploaded := 0;
           skipped := Z.of_nat (List.length (opts_samples opts)) |}
  else
    (wire <- step (toIngestSamples (opts_samples opts)) ;;
     let payload :=
       {| user_id := userId opts;
          storage_mode := storageMode opts;
          payload_samples := wire |} in
     res <- call (Post "/samples" payload) (post api "/samples" payload) ;;
     ret {| uploaded := inserted res;
            skipped := Z.of_nat (List.length (opts_samples opts)) - inserted res |})%async.

End Sync.

(* ===================================================================== *)
(** ** react-native-health (HealthKit), as the provider uses it *)
(* ===================================================================== *)

Module HealthKit.

(** [AppleHealthKit.Constants.Permissions] *)
Inductive Permission : Type :=
| BloodGlucose | HeartRate | BloodPressureSystolic | BloodPressureDiastolic
| StepCount | AppleExerciseTime | Electrocardiogram.

Record Permissions : Type :=
  { read : list Permission; write : list Permission }.

(** The option bag of a sample query. *)
Record Options : Type :=
  { startDate : string;
    endDate : string;
    limit : option Z;
    ascending : option bool }.

Record Metadata : Type := { HKWasUserEntered : option bool }.

(** Vendor records are loosely typed ([any]); a field that the provider
    coerces or reads through [?.] may be absent. *)
Record GlucoseValue : Type :=
  { g_value : option number;
    g_unit : option string;
    g_startDate : TimeField;
    g_metadata : option Metadata }.

(** Heart-rate, daily-step and exercise-time records. *)
Record HealthValue : Type :=
  { v_value : option number; v_startDate : TimeField }.

Record BloodPressureValue : Type :=
  { bloodPressureSystolicValue : option number;
    bloodPressureDiastolicValue : option number;
    bp_startDate : TimeField }.

Record EcgValue : Type :=
  { averageHeartRate : option number;
    classification : option string;
    samplingFrequency : option number;
    voltageMeasurements : option (list (list number));
    ecg_startDate : TimeField }.

(** What a query hands to its Node-style callback [(err, res)]. *)
Record Callback (T : Type) : Type :=
  { err : option Error; res : option T }.
Arguments err {T} _.
Arguments res {T} _.

(** The default export of the module. *)
Record Module_ : Type :=
  { initHealthKit : Permissions -> option Error;
    getBloodGlucoseSamples : Options -> Callback (list GlucoseValue);
    getHeartRateSamples : Options -> Callback (list HealthValue);
    getBloodPressureSamples : Options -> Callback (list BloodPressureValue);
    getDailyStepCountSamples : Options -> Callback (list HealthValue);
    getAppleExerciseTime : Options -> Callback (list HealthValue);
    getElectrocardiogramSamples : Options -> Callback (list EcgValue) }.

End HealthKit.

(* ===================================================================== *)
(** ** react-native-health-connect, as the provider uses it *)
(* ===================================================================== *)

Module HealthConnect.

(** The record types the provider names. *)
Inductive RecordType : Type :=
| BloodGlucose | HeartRate | BloodPressure | Steps | ExerciseSession.

Record Permission : Type :=
  { accessType : string; recordType : RecordType }.

Record TimeRangeFilter : Type :=
  { operator : string; startTime : string; endTime : string }.

Record ReadOptions : Type := { timeRangeFilter : TimeRangeFilter }.

Record Level : Type :=
  { inMgPerDl : option number; inMmolPerL : option number }.

Record Metadata : Type := { dataOrigin : option string }.

Record GlucoseRecord : Type :=
  { g_time : TimeField;
    g_level : option Level;
    g_metadata : option Metadata }.

Record HeartSample : Type := { s_beatsPerMinute : option number }.

Record HeartRateRecord : Type :=
  { h_time : TimeField;
    h_beatsPerMinute : option number;
    h_samples : option (list HeartSample) }.

Record Pressure : Type := { inMillimetersOfMercury : option number }.

Record BloodPressureRecord : Type :=
  { b_time : TimeField;
    b_systolic : option Pressure;
    b_diastolic : option Pressure }.

Record StepsRecord : Type :=
  { s_startTime : TimeField;
    s_endTime : TimeField;
    s_count : option number }.

Record ExerciseRecord : Type :=
  { ex_startTime : TimeField; ex_endTime : TimeField }.

Definition RecordOf (t : RecordType) : Type :=
  match t with
  | BloodGlucose => GlucoseRecord
  | HeartRate => HeartRateRecord
  | BloodPressure => BloodPressureRecord
  | Steps => StepsRecord
  | ExerciseSession => ExerciseRecord
  end.

Record Response (R : Type) : Type := { records : option (list R) }.
Arguments records {R} _.

Record Module_ : Type :=
  { requestPermission : list Permission -> Outcome (list Permission);
    readRecords :
      forall t : RecordType,
        ReadOptions -> Outcome (option (Response (RecordOf t))) }.

End HealthConnect.

(* ===================================================================== *)
(** ** src/health/healthProvider.ts *)
(* ===================================================================== *)

Module HealthProvider.

Module HK := HealthKit.
Module HC := HealthConnect.

(** [Platform.OS] *)
Inductive PlatformOS : Type := ios | android | windows | macos | web.

Definition PlatformOS_eqb (a b : PlatformOS) : bool :=
  match a, b with
  | ios, ios | android, android | windows, windows
  | macos, macos | web, web => true
  | _, _ => false
  end.

(** Everything outside the provider: the running platform and what the
    two dynamic imports settle to. *)
Record World : Type :=
  { OS : PlatformOS;
    import_health : Outcome HK.Module_;
    import_health_connect : Outcome HC.Module_ }.

Inductive Call : Type :=
| Import (module : string)
| InitHealthKit (perms : HK.Permissions)
| HealthKitQuery (method : string) (opts : HK.Options)
| RequestPermission (perms : list HC.Permission)
| ReadRecords (t : HC.RecordType) (opts : HC.ReadOptions).

Record PermissionResult : Type :=
  { granted : bool; reason : option string }.

(** The read permissions asked of HealthKit (lines 39-46). *)
Definition ios_read_permissions : list HK.Permission :=
  [ HK.BloodGlucose; HK.HeartRate; HK.BloodPressureSystolic;
    HK.BloodPressureDiastolic; HK.StepCount; HK.AppleExerciseTime;
    HK.Electrocardiogram ].

(** The permissions asked of Health Connect (lines 68-74). *)
Definition android_permissions : list HC.Permission :=
  [ {| HC.accessType := "read"; HC.recordType := HC.BloodGlucose |};
    {| HC.accessType := "read"; HC.recordType := HC.HeartRate |};
    {| HC.accessType := "read"; HC.recordType := HC.BloodPressure |};
    {| HC.accessType := "read"; HC.recordType := HC.Steps |};
    {| HC.accessType := "read"; HC.recordType := HC.ExerciseSession |} ].

Definition requestPermissions (w : World) : Eff Call PermissionResult :=
  if PlatformOS_eqb (OS w) ios then
    try_catch
      (AppleHealthKit <- call (Import "react-native-health") (import_health w) ;;
       let perms :=
         {| HK.read := ios_read_permissions; HK.write := [] |} in
       _ <- call (InitHealthKit perms)
              (match HK.initHealthKit AppleHealthKit perms with
               | Some err => Throw err
               | None => Ok tt
               end) ;;
       ret {| granted := true; reason := None |})%async
      (fun e =>
         ret {| granted := false;
                reason := Some (message e ?? "HealthKit permission failed"%string)%async |})
  else if PlatformOS_eqb (OS w) android then
    try_catch
      (hc <- call (Import "react-native-health-connect")
               (import_health_connect w) ;;
       granted <- call (RequestPermission android_permissions)
                    (HC.requestPermission hc android_permissions) ;;
       ret {| granted := (0 <? Z.of_nat (List.length granted));
              reason := None |})%async
      (fun e =>
         ret {| granted := false;
                reason :=
                  Some (message e ?? "Health Connect permission failed"%string)%async |})
  else
    ret {| granted := false; reason := Some "Unsupported platform"%string |}.

(** The promise wrapper [p] of lines 94-100: the query is issued at once
    and the promise settles from its callback arguments. *)
Definition p {T} (ev : Call) (cb : HK.Callback T) : Eff Call (option T) :=
  call ev (match HK.err cb with
           | Some err => Throw err
           | None => Ok (HK.res cb)
           end).

(** *** HealthKit loop bodies (lines 114-181) *)

Definition ios_glucose_sample (g : HK.GlucoseValue) : HealthSample :=
  let mgDl := Number (HK.g_value g) in
  let mgDl :=
    if match HK.g_unit g with
       | Some u => String.eqb u "mmolPerL" || String.eqb u "mmol/L"
       | None => false
       end
    then mul mgDl (Fin 18.018)
    else mgDl in
  BloodGlucoseSample (new_Date (HK.g_startDate g))
    {| mg_dl := mgDl;
       source :=
         if truthy_flag
              (match HK.g_metadata g with
               | Some m => HK.HKWasUserEntered m
               | None => None
               end)
         then manual else cgm |}.

Definition ios_heart_rate_sample (h : HK.HealthValue) : HealthSample :=
  HeartRateSample (new_Date (HK.v_startDate h))
    {| bpm := Number (HK.v_value h) |}.

Definition ios_blood_pressure_sample (b : HK.BloodPressureValue)
  : HealthSample :=
  BloodPressureSample (new_Date (HK.bp_startDate b))
    {| systolic_mmhg := Number (HK.bloodPressureSystolicValue b);
       diastolic_mmhg := Number (HK.bloodPressureDiastolicValue b) |}.

Definition ios_steps_sample (s : HK.HealthValue) : HealthSample :=
  StepsSample (new_Date (HK.v_startDate s))
    {| spm := div (Number (HK.v_value s)) (of_Z (24 * 60));
       interval_minutes := of_Z (24 * 60) |}.

Definition ios_exercise_sample (m : HK.HealthValue) : HealthSample :=
  ExerciseSample (new_Date (HK.v_startDate m))
    {| minutes := Number (HK.v_value m) |}.

Definition ios_ecg_sample (e : HK.EcgValue) : HealthSample :=
  EcgSample (new_Date (HK.ecg_startDate e))
    {| average_bpm := HK.averageHeartRate e;
       classification := HK.classification e;
       sampling_hz := HK.samplingFrequency e;
       voltage_samples := HK.voltageMeasurements e |}.

(** *** Health Connect loop bodies (lines 210-262); a body that pushes
    under a guard yields zero or one sample. *)

Definition android_glucose_samples (g : HC.GlucoseRecord)
  : list HealthSample :=
  let mgDl : option number :=
    match (match HC.g_level g with
           | Some l => HC.inMgPerDl l
           | None => None
           end) with
    | Some v => Some v
    | None =>
        match (match HC.g_level g with
               | Some l => HC.inMmolPerL l
               | None => None
               end) with
        | Some mmol =>
            if truthy mmol then Some (mul mmol (Fin 18.018)) else None
        | None => None
        end
    end in
  match mgDl with
  | Some v =>
      [ BloodGlucoseSample (new_Date (HC.g_time g))
          {| mg_dl := Number (Some v);
             source :=
               if truthy_string
                    (match HC.g_metadata g with
                     | Some m => HC.dataOrigin m
                     | None => None
                     end)
               then cgm else manual |} ]
  | None => []
  end.

Definition android_heart_rate_samples (h : HC.HeartRateRecord)
  : list HealthSample :=
  let bpm : option number :=
    match HC.h_beatsPerMinute h with
    | Some v => Some v
    | None =>
        match HC.h_samples h with
        | Some (s0 :: _) => HC.s_beatsPerMinute s0
        | _ => None
        end
    end in
  match bpm with
  | Some v =>
      [ HeartRateSample (new_Date (HC.h_time h)) {| bpm := Number (Some v) |} ]
  | None => []
  end.

Definition android_blood_pressure_samples (b : HC.BloodPressureRecord)
  : list HealthSample :=
  let systolic :=
    match HC.b_systolic b with
    | Some pr => HC.inMillimetersOfMercury pr
    | None => None
    end in
  let diastolic :=
    match HC.b_diastolic b with
    | Some pr => HC.inMillimetersOfMercury pr
    | None => None
    end in
  match systolic, diastolic with
  | Some sy, Some di =>
      [ BloodPressureSample (new_Date (HC.b_time b))
          {| systolic_mmhg := Number (Some sy);
             diastolic_mmhg := Number (Some di) |} ]
  | _, _ => []
  end.

Definition android_steps_sample (s : HC.StepsRecord) : HealthSample :=
  let start := new_Date (HC.s_startTime s) in
  let end_ := new_Date (HC.s_endTime s) in
  let minutes :=
    Math_max (of_Z 1)
      (Math_round (div (sub (getTime end_) (getTime start)) (of_Z 60000))) in
  StepsSample start
    {| spm := div (Number (HC.s_count s)) minutes;
       interval_minutes := minutes |}.

Definition android_exercise_sample (ex : HC.ExerciseRecord) : HealthSample :=
  let start := new_Date (HC.ex_startTime ex) in
  let end_ := new_Date (HC.ex_endTime ex) in
  let minutes :=
    Math_max (of_Z 0)
      (Math_round (div (sub (getTime end_) (getTime start)) (of_Z 60000))) in
  ExerciseSample start {| minutes := minutes |}.

(** [(res as any)?.records ?? []] *)
Definition records_or_empty {R} (res : option (HC.Response R)) : list R :=
  (match res with
   | Some r => HC.records r
   | None => None
   end ?? [])%async.

(** The option bags of the HealthKit queries (lines 89-92, 106, 108),
    for the ISO texts of the two window bounds. *)
Definition ios_opts_of (startDate endDate : string) : HK.Options :=
  {| HK.startDate := startDate;
     HK.endDate := endDate;
     HK.limit := Some 1000;
     HK.ascending := Some true |}.

Definition ios_steps_opts_of (startDate endDate : string) : HK.Options :=
  {| HK.startDate := startDate;
     HK.endDate := endDate;
     HK.limit := None;
     HK.ascending := None |}.

Definition ios_ecg_opts_of (startDate endDate : string) : HK.Options :=
  {| HK.startDate := HK.startDate (ios_opts_of startDate endDate);
     HK.endDate := HK.endDate (ios_opts_of startDate endDate);
     HK.limit := Some 3;
     HK.ascending := HK.ascending (ios_opts_of startDate endDate) |}.

(** The read options of Health Connect (lines 189-192). *)
Definition android_opts_of (startTime endTime : string) : HC.ReadOptions :=
  {| HC.timeRangeFilter :=
       {| HC.operator := "between";
          HC.startTime := startTime;
          HC.endTime := endTime |} |}.

Definition readLast24h (w : World) (window : HealthReadWindow)
  : Eff Call HealthReadResult :=
  if PlatformOS_eqb (OS w) ios then
    (AppleHealthKit <- call (Import "react-native-health") (import_health w) ;;
     startDate <- step (toISOString (start window)) ;;
     endDate <- step (toISOString (end_ window)) ;;
     let opts := ios_opts_of startDate endDate in
     ' (glucose, (hr, (bp, (stepsDaily, (ex, ecg))))) <-
       both (p (HealthKitQuery "getBloodGlucoseSamples" opts)
               (HK.getBloodGlucoseSamples AppleHealthKit opts))
      (both (p (HealthKitQuery "getHeartRateSamples" opts)
               (HK.getHeartRateSamples AppleHealthKit opts))
      (both (p (HealthKitQuery "getBloodPressureSamples" opts)
               (HK.getBloodPressureSamples AppleHealthKit opts))
      (both (p (HealthKitQuery "getDailyStepCountSamples"
                  (ios_steps_opts_of startDate endDate))
               (HK.getDailyStepCountSamples AppleHealthKit
                  (ios_steps_opts_of startDate endDate)))
      (both (p (HealthKitQuery "getAppleExerciseTime" opts)
               (HK.getAppleExerciseTime AppleHealthKit opts))
            (p (HealthKitQuery "getElectrocardiogramSamples"
                  (ios_ecg_opts_of startDate endDate))
               (HK.getElectrocardiogramSamples AppleHealthKit
                  (ios_ecg_opts_of startDate endDate))))))) ;;
     let samples :=
       map ios_glucose_sample (glucose ?? [])
         ++ map ios_heart_rate_sample (hr ?? [])
         ++ map ios_blood_pressure_sample (bp ?? [])
         ++ map ios_steps_sample (stepsDaily ?? [])
         ++ map ios_exercise_sample (ex ?? [])
         ++ map ios_ecg_sample (ecg ?? []) in
     ret {| samples := samples; unavailable := None |})%async
  else if PlatformOS_eqb (OS w) android then
    (hc <- call (Import "react-native-health-connect")
             (import_health_connect w) ;;
     startTime <- step (toISOString (start window)) ;;
     endTime <- step (toISOString (end_ window)) ;;
     let opts := android_opts_of startTime endTime in
     ' (glucoseRes, (hrRes, (bpRes, (stepsRes, exerciseRes)))) <-
       both (call (ReadRecords HC.BloodGlucose opts)
               (HC.readRecords hc HC.BloodGlucose opts))
      (both (call (ReadRecords HC.HeartRate opts)
               (HC.readRecords hc HC.HeartRate opts))
      (both (call (ReadRecords HC.BloodPressure opts)
               (HC.readRecords hc HC.BloodPressure opts))
      (both (call (ReadRecords HC.Steps opts)
               (HC.readRecords hc HC.Steps opts))
            (call (ReadRecords HC.ExerciseSession opts)
               (HC.readRecords hc HC.ExerciseSession opts))))) ;;
     let glucose := records_or_empty glucoseRes in
     let hr := records_or_empty hrRes in
     let bp := records_or_empty bpRes in
     let steps := records_or_empty stepsRes in
     let exercise := records_or_empty exerciseRes in
     let samples :=
       flat_map android_glucose_samples glucose
         ++ flat_map android_heart_rate_samples hr
         ++ flat_map android_blood_pressure_samples bp
         ++ map android_steps_sample steps
         ++ map android_exercise_sample exercise in
     ret {| samples := samples; unavailable := None |})%async
  else
    ret {| samples := []; unavailable := Some "Unsupported platform"%string |}.

End HealthProvider.

(* ===================================================================== *)
(** ** Views of a canonical sample *)
(* ===================================================================== *)

Module SampleView.

Import ApiTypes.

(** [s.type] *)
Definition type_of (s : HealthSample) : SampleType :=
  match s with
  | BloodGlucoseSample _ _ => blood_glucose
  | HeartRateSample _ _ => heart_rate
  | BloodPressureSample _ _ => blood_pressure
  | StepsSample _ _ => steps
  | ExerciseSample _ _ => exercise_minutes
  | EcgSample _ _ => ecg
  end.

(** [s.data] *)
Definition data_of (s : HealthSample) : SampleData :=
  match s with
  | BloodGlucoseSample _ d => GlucoseObj d
  | HeartRateSample _ d => HeartRateObj d
  | BloodPressureSample _ d => BloodPressureObj d
  | StepsSample _ d => StepsObj d
  | ExerciseSample _ d => ExerciseObj d
  | EcgSample _ d => EcgObj d
  end.

Definition SampleType_eqb (a b : SampleType) : bool :=
  match a, b with
  | blood_glucose, blood_glucose | heart_rate, heart_rate
  | blood_pressure, blood_pressure | steps, steps
  | exercise_minutes, exercise_minutes | ecg, ecg => true
  | _, _ => false
  end.

(** The samples of one category, in order. *)
Definition of_type (t : SampleType) (l : list HealthSample)
  : list HealthSample :=
  filter (fun s => SampleType_eqb (type_of s) t) l.

(** The ISO-8601 text of a date; the empty text stands for an invalid
    date, which has none. *)
Definition iso_text (d : Date) : string :=
  match toISOString d with
  | Ok text => text
  | Throw _ => EmptyString
  end.

(** The wire sample the ingest contract expects for a canonical sample
    when no [end_time] is sent. *)
Definition wire_of (s : HealthSample) : IngestSample :=
  {| type := type_of s;
     timestamp := iso_text (Sync.timestamp_of s);
     end_time := None;
     data := data_of s |}.

(** A sample whose time stamp is a valid date. *)
Definition dated (s : HealthSample) : bool :=
  match time_value (Sync.timestamp_of s) with
  | Some _ => true
  | None => false
  end.

End SampleView.

(* ===================================================================== *)
(** ** Views of a windowed read and of the vendor records *)
(* ===================================================================== *)

Module ProviderView.

Import ApiTypes SampleView HealthProvider.

(** The data category a HealthKit permission opens. *)
Definition hk_category (perm : HK.Permission) : SampleType :=
  match perm with
  | HK.BloodGlucose => blood_glucose
  | HK.HeartRate => heart_rate
  | HK.BloodPressureSystolic | HK.BloodPressureDiastolic => blood_pressure
  | HK.StepCount => steps
  | HK.AppleExerciseTime => exercise_minutes
  | HK.Electrocardiogram => ecg
  end.

(** The data category a Health Connect record type belongs to. *)
Definition hc_category (t : HC.RecordType) : SampleType :=
  match t with
  | HC.BloodGlucose => blood_glucose
  | HC.HeartRate => heart_rate
  | HC.BloodPressure => blood_pressure
  | HC.Steps => steps
  | HC.ExerciseSession => exercise_minutes
  end.

(** The categories a permission request asks for, read off the logged
    call. *)
Definition requested_categories (c : Call) : list SampleType :=
  match c with
  | InitHealthKit perms => map hk_category (HK.read perms)
  | RequestPermission perms =>
      map (fun perm => hc_category (HC.recordType perm))
        (filter (fun perm => String.eqb (HC.accessType perm) "read") perms)
  | _ => []
  end.

(** One category of a windowed read: whether its query failed, and the
    samples its records normalise to. *)
Record CategoryRead : Type :=
  { failure : option Error; contributes : list HealthSample }.

Definition ios_category {T} (body : T -> HealthSample)
    (cb : HK.Callback (list T)) : CategoryRead :=
  {| failure := HK.err cb;
     contributes := map body (HK.res cb ?? [])%async |}.

Definition android_category {R} (body : R -> list HealthSample)
    (settled : Outcome (option (HC.Response R))) : CategoryRead :=
  match settled with
  | Ok res =>
      {| failure := None;
         contributes := flat_map body (records_or_empty res) |}
  | Throw e => {| failure := Some e; contributes := [] |}
  end.

(** A window both of whose bounds are valid dates. *)
Definition bounded (window : HealthReadWindow) : bool :=
  match time_value (start window), time_value (end_ window) with
  | Some _, Some _ => true
  | _, _ => false
  end.

(** The option bags of the queries for a window. *)
Definition ios_opts (window : HealthReadWindow) : HK.Options :=
  ios_opts_of (iso_text (start window)) (iso_text (end_ window)).

Definition ios_steps_opts (window : HealthReadWindow) : HK.Options :=
  ios_steps_opts_of (iso_text (start window)) (iso_text (end_ window)).

Definition ios_ecg_opts (window : HealthReadWindow) : HK.Options :=
  ios_ecg_opts_of (iso_text (start window)) (iso_text (end_ window)).

Definition android_opts (window : HealthReadWindow) : HC.ReadOptions :=
  android_opts_of (iso_text (start window)) (iso_text (end_ window)).

Definition ios_reads (hk : HK.Module_) (window : HealthReadWindow)
  : list CategoryRead :=
  [ ios_category ios_glucose_sample
      (HK.getBloodGlucoseSamples hk (ios_opts window));
    ios_category ios_heart_rate_sample
      (HK.getHeartRateSamples hk (ios_opts window));
    ios_category ios_blood_pressure_sample
      (HK.getBloodPressureSamples hk (ios_opts window));
    ios_category ios_steps_sample
      (HK.getDailyStepCountSamples hk (ios_steps_opts window));
    ios_category ios_exercise_sample
      (HK.getAppleExerciseTime hk (ios_opts window));
    ios_category ios_ecg_sample
      (HK.getElectrocardiogramSamples hk (ios_ecg_opts window)) ].

Definition android_reads (hc : HC.Module_) (window : HealthReadWindow)
  : list CategoryRead :=
  [ android_category android_glucose_samples
      (HC.readRecords hc HC.BloodGlucose (android_opts window));
    android_category android_heart_rate_samples
      (HC.readRecords hc HC.HeartRate (android_opts window));
    android_category android_blood_pressure_samples
      (HC.readRecords hc HC.BloodPressure (android_opts window));
    android_category (fun s => [android_steps_sample s])
      (HC.readRecords hc HC.Steps (android_opts window));
    android_category (fun ex => [android_exercise_sample ex])
      (HC.readRecords hc HC.ExerciseSession (android_opts window)) ].

(** The category reads of an available platform: a supported OS whose
    native module loads, asked about a window with valid bounds. *)
Definition platform_reads (w : World) (window : HealthReadWindow)
  : option (list CategoryRead) :=
  if bounded window then
    match OS w, import_health w, import_health_connect w with
    | ios, Ok hk, _ => Some (ios_reads hk window)
    | android, _, Ok hc => Some (android_reads hc window)
    | _, _, _ => None
    end
  else None.

Fixpoint first_failure (cats : list CategoryRead) : option Error :=
  match cats with
  | [] => None
  | c :: rest =>
      match failure c with
      | Some e => Some e
      | None => first_failure rest
      end
  end.

(** The calls a windowed read issues once the module is loaded: the
    category queries, or none at all when a bound of the window has no
    ISO text to query with. *)
Definition ios_query_calls (window : HealthReadWindow) : list Call :=
  if bounded window then
    [ HealthKitQuery "getBloodGlucoseSamples" (ios_opts window);
      HealthKitQuery "getHeartRateSamples" (ios_opts window);
      HealthKitQuery "getBloodPressureSamples" (ios_opts window);
      HealthKitQuery "getDailyStepCountSamples" (ios_steps_opts window);
      HealthKitQuery "getAppleExerciseTime" (ios_opts window);
      HealthKitQuery "getElectrocardiogramSamples" (ios_ecg_opts window) ]
  else [].

Definition android_query_calls (window : HealthReadWindow) : list Call :=
  if bounded window then
    map (fun t => ReadRecords t (android_opts window))
      [HC.BloodGlucose; HC.HeartRate; HC.BloodPressure; HC.Steps;
       HC.ExerciseSession]
  else [].

(** *** Glucose records *)

Definition glucose_data (s : HealthSample) : option BloodGlucoseData :=
  match s with
  | BloodGlucoseSample _ d => Some d
  | _ => None
  end.

(** HealthKit reports a value together with its unit. *)
Definition ios_unit_is_mmol (g : HK.GlucoseValue) : bool :=
  match HK.g_unit g with
  | Some u => String.eqb u "mmolPerL" || String.eqb u "mmol/L"
  | None => false
  end.

Definition ios_user_entered (g : HK.GlucoseValue) : bool :=
  match HK.g_metadata g with
  | Some m => truthy_flag (HK.HKWasUserEntered m)
  | None => false
  end.

(** A Health Connect level given in mg/dL. *)
Definition android_level_mg (g : HC.GlucoseRecord) : option number :=
  match HC.g_level g with
  | Some l => HC.inMgPerDl l
  | None => None
  end.

(** A Health Connect level given in mmol/L only. *)
Definition android_level_mmol (g : HC.GlucoseRecord) : option number :=
  match HC.g_level g with
  | Some l =>
      match HC.inMgPerDl l with
      | Some _ => None
      | None => HC.inMmolPerL l
      end
  | None => None
  end.

Definition android_has_origin (g : HC.GlucoseRecord) : bool :=
  match HC.g_metadata g with
  | Some m => truthy_string (HC.dataOrigin m)
  | None => false
  end.

(** A record marks its data as user-entered through its metadata; a
    record without metadata marks nothing. *)
Definition android_marked (mark : HC.Metadata -> bool)
    (g : HC.GlucoseRecord) : bool :=
  match HC.g_metadata g with
  | Some m => mark m
  | None => false
  end.

(** *** Blood-pressure records *)

Definition ios_bp_complete (b : HK.BloodPressureValue) : bool :=
  match HK.bloodPressureSystolicValue b, HK.bloodPressureDiastolicValue b with
  | Some _, Some _ => true
  | _, _ => false
  end.

Definition android_bp_complete (b : HC.BloodPressureRecord) : bool :=
  match HC.b_systolic b, HC.b_diastolic b with
  | Some sy, Some di =>
      match HC.inMillimetersOfMercury sy, HC.inMillimetersOfMercury di with
      | Some _, Some _ => true
      | _, _ => false
      end
  | _, _ => false
  end.

(** *** Steps records *)

Definition steps_data (s : HealthSample) : option StepsData :=
  match s with
  | StepsSample _ d => Some d
  | _ => None
  end.

(** The length of an interval between two instants in whole minutes,
    halves rounded up. *)
Definition whole_minutes (start end_ : Timestamp) : Z :=
  (end_ - start + 30000) / 60000.

(** A vendor time field that [new Date] turns into a valid date. *)
Definition instant (field : TimeField) : option Timestamp :=
  time_value (new_Date field).

(** A sample of any category but ECG. *)
Definition not_ecg (s : HealthSample) : Prop := type_of s <> ecg.

(** *** Permission requests *)

(** The error the platform raises against a permission request: the
    native module does not load, or the request itself is refused with an
    error. *)
Definition platform_refusal (w : World) : option Error :=
  match OS w with
  | ios =>
      match import_health w with
      | Throw e => Some e
      | Ok hk =>
          HK.initHealthKit hk
            {| HK.read := ios_read_permissions; HK.write := [] |}
      end
  | android =>
      match import_health_connect w with
      | Throw e => Some e
      | Ok hc =>
          match HC.requestPermission hc android_permissions with
          | Throw e => Some e
          | Ok _ => None
          end
      end
  | _ => None
  end.

(** The reason reported for an error that carries no message. *)
Definition fallback_reason (os : PlatformOS) : string :=
  match os with
  | ios => "HealthKit permission failed"
  | android => "Health Connect permission failed"
  | _ => "Unsupported platform"
  end.

End ProviderView.

(* ===================================================================== *)
(** ** Scenarios used to exercise the definitions *)
(* ===================================================================== *)

Module Scenario.

Import ApiTypes Sync.

Definition t0 : Timestamp := 1700000000000.

Definition five_samples : list HealthSample :=
  [ BloodGlucoseSample (new_Date t0) {| mg_dl := Fin 101; source := cgm |};
    HeartRateSample (new_Date (t0 + 60000)) {| bpm := Fin 62 |};
    BloodPressureSample (new_Date (t0 + 120000))
      {| systolic_mmhg := Fin 120; diastolic_mmhg := Fin 80 |};
    StepsSample (new_Date (t0 + 180000))
      {| spm := Fin 12; interval_minutes := Fin 5 |};
    ExerciseSample (new_Date (t0 + 240000)) {| minutes := Fin 30 |} ].

(** A backend that stores three samples of whatever it is sent. *)
Definition backend_inserts_3 : ApiClient :=
  {| post := fun _ _ => Ok {| inserted := 3 |} |}.

(** A backend that cannot be reached. *)
Definition backend_down : ApiClient :=
  {| post := fun _ _ => Throw (mkError (Some "Network Error"%string)) |}.

Definition upload_raw : UploadOpts :=
  {| userId := "u1"; storageMode := raw; opts_samples := five_samples |}.

Definition upload_local : UploadOpts :=
  {| userId := "u1"; storageMode := local_only;
     opts_samples := five_samples |}.

End Scenario.

Module ProviderScenario.

Import HealthProvider.

Definition t0 : Timestamp := Scenario.t0.

(** The window [[T0, T0 + 24h)]. *)
Definition day : HealthReadWindow :=
  {| start := new_Date t0; end_ := new_Date (t0 + 86400000) |}.

Definition module_missing : Error :=
  mkError (Some "Cannot find module"%string).

Definition no_records {T} : HK.Callback (list T) :=
  {| HK.err := None; HK.res := Some [] |}.

(** A HealthKit bridge that grants access and holds no data. *)
Definition hk_quiet : HK.Module_ :=
  {| HK.initHealthKit := fun _ => None;
     HK.getBloodGlucoseSamples := fun _ => no_records;
     HK.getHeartRateSamples := fun _ => no_records;
     HK.getBloodPressureSamples := fun _ => no_records;
     HK.getDailyStepCountSamples := fun _ => no_records;
     HK.getAppleExerciseTime := fun _ => no_records;
     HK.getElectrocardiogramSamples := fun _ => no_records |}.

Definition ios_with (hk : HK.Module_) : World :=
  {| OS := ios;
     import_health := Ok hk;
     import_health_connect := Throw module_missing |}.

(** One reading of 7.8 mmol/L at T0 + 1h, not user-entered. *)
Definition hk_glucose_7_8 : HK.GlucoseValue :=
  {| HK.g_value := Some (Fin 7.8);
     HK.g_unit := Some "mmol/L"%string;
     HK.g_startDate := t0 + 3600000;
     HK.g_metadata := Some {| HK.HKWasUserEntered := Some false |} |}.

(** One reading of 95 mg/dL typed in by the user. *)
Definition hk_glucose_typed : HK.GlucoseValue :=
  {| HK.g_value := Some (Fin 95);
     HK.g_unit := Some "mg/dL"%string;
     HK.g_startDate := t0 + 7200000;
     HK.g_metadata := Some {| HK.HKWasUserEntered := Some true |} |}.

Definition heart_rate_query_failed : Error :=
  mkError (Some "Error getting heart rate samples"%string).

(** The glucose query answers, the heart-rate query fails. *)
Definition hk_heart_rate_fails : HK.Module_ :=
  {| HK.initHealthKit := fun _ => None;
     HK.getBloodGlucoseSamples :=
       fun _ => {| HK.err := None; HK.res := Some [hk_glucose_7_8] |};
     HK.getHeartRateSamples :=
       fun _ => {| HK.err := Some heart_rate_query_failed; HK.res := None |};
     HK.getBloodPressureSamples := fun _ => no_records;
     HK.getDailyStepCountSamples := fun _ => no_records;
     HK.getAppleExerciseTime := fun _ => no_records;
     HK.getElectrocardiogramSamples := fun _ => no_records |}.

(** A blood-pressure record that carries no diastolic value. *)
Definition hk_bp_no_diastolic : HK.BloodPressureValue :=
  {| HK.bloodPressureSystolicValue := Some (Fin 120);
     HK.bloodPressureDiastolicValue := None;
     HK.bp_startDate := t0 + 3600000 |}.

Definition hk_incomplete_bp : HK.Module_ :=
  {| HK.initHealthKit := fun _ => None;
     HK.getBloodGlucoseSamples := fun _ => no_records;
     HK.getHeartRateSamples := fun _ => no_records;
     HK.getBloodPressureSamples :=
       fun _ => {| HK.err := None; HK.res := Some [hk_bp_no_diastolic] |};
     HK.getDailyStepCountSamples := fun _ => no_records;
     HK.getAppleExerciseTime := fun _ => no_records;
     HK.getElectrocardiogramSamples := fun _ => no_records |}.

(** HealthKit refuses the authorisation request. *)
Definition hk_refuses : HK.Module_ :=
  {| HK.initHealthKit :=
       fun _ => Some (mkError (Some "Authorization denied"%string));
     HK.getBloodGlucoseSamples := fun _ => no_records;
     HK.getHeartRateSamples := fun _ => no_records;
     HK.getBloodPressureSamples := fun _ => no_records;
     HK.getDailyStepCountSamples := fun _ => no_records;
     HK.getAppleExerciseTime := fun _ => no_records;
     HK.getElectrocardiogramSamples := fun _ => no_records |}.

Definition android_with (hc : HC.Module_) : World :=
  {| OS := android;
     import_health := Throw module_missing;
     import_health_connect := Ok hc |}.

Definition hc_glucose_7_8 : HC.GlucoseRecord :=
  {| HC.g_time := t0 + 3600000;
     HC.g_level :=
       Some {| HC.inMgPerDl := None; HC.inMmolPerL := Some (Fin 7.8) |};
     HC.g_metadata := Some {| HC.dataOrigin := Some "com.vendor.cgm"%string |} |}.

(** A reading of 100 mg/dL that carries no metadata at all. *)
Definition hc_glucose_bare : HC.GlucoseRecord :=
  {| HC.g_time := t0 + 7200000;
     HC.g_level :=
       Some {| HC.inMgPerDl := Some (Fin 100); HC.inMmolPerL := None |};
     HC.g_metadata := None |}.

Definition hc_bp_no_diastolic : HC.BloodPressureRecord :=
  {| HC.b_time := t0 + 3600000;
     HC.b_systolic := Some {| HC.inMillimetersOfMercury := Some (Fin 120) |};
     HC.b_diastolic := None |}.

Definition hc_bp_full : HC.BloodPressureRecord :=
  {| HC.b_time := t0 + 3600000;
     HC.b_systolic := Some {| HC.inMillimetersOfMercury := Some (Fin 118) |};
     HC.b_diastolic := Some {| HC.inMillimetersOfMercury := Some (Fin 76) |} |}.

(** Ten steps over a zero-length interval. *)
Definition hc_steps_instant : HC.StepsRecord :=
  {| HC.s_startTime := t0; HC.s_endTime := t0; HC.s_count := Some (Fin 10) |}.

(** Three hundred steps over five minutes. *)
Definition hc_steps_5min : HC.StepsRecord :=
  {| HC.s_startTime := t0;
     HC.s_endTime := t0 + 300000;
     HC.s_count := Some (Fin 300) |}.

Definition read_rejected : Error :=
  mkError (Some "readRecords failed"%string).

(** What each record type answers; [None] stands for a rejected read. *)
Record Store : Type :=
  { st_glucose : option (list HC.GlucoseRecord);
    st_heart : option (list HC.HeartRateRecord);
    st_pressure : option (list HC.BloodPressureRecord);
    st_steps : option (list HC.StepsRecord);
    st_exercise : option (list HC.ExerciseRecord) }.

Definition answer {R} (rejection : Error) (x : option (list R))
  : Outcome (option (HC.Response R)) :=
  match x with
  | Some l => Ok (Some {| HC.records := Some l |})
  | None => Throw rejection
  end.

(** A Health Connect bridge serving a store and granting [grants]. *)
Definition hc_serving (grants : list HC.Permission) (st : Store)
  : HC.Module_ :=
  {| HC.requestPermission := fun _ => Ok grants;
     HC.readRecords :=
       fun t _ =>
         match t as t' return Outcome (option (HC.Response (HC.RecordOf t')))
         with
         | HC.BloodGlucose => answer read_rejected (st_glucose st)
         | HC.HeartRate => answer read_rejected (st_heart st)
         | HC.BloodPressure => answer read_rejected (st_pressure st)
         | HC.Steps => answer read_rejected (st_steps st)
         | HC.ExerciseSession => answer read_rejected (st_exercise st)
         end |}.

Definition empty_store : Store :=
  {| st_glucose := Some []; st_heart := Some []; st_pressure := Some [];
     st_steps := Some []; st_exercise := Some [] |}.

(** Glucose is served, the steps read is rejected. *)
Definition store_steps_fail : Store :=
  {| st_glucose := Some [hc_glucose_7_8]; st_heart := Some [];
     st_pressure := Some []; st_steps := None; st_exercise := Some [] |}.

Definition store_mixed : Store :=
  {| st_glucose := Some [hc_glucose_7_8; hc_glucose_bare];
     st_heart := Some [];
     st_pressure := Some [hc_bp_no_diastolic; hc_bp_full];
     st_steps := Some [hc_steps_instant; hc_steps_5min];
     st_exercise := Some [] |}.

(** The user grants nothing. *)
Definition android_denied : World :=
  android_with (hc_serving [] empty_store).

Definition web_world : World :=
  {| OS := web;
     import_health := Throw module_missing;
     import_health_connect := Throw module_missing |}.

(** Two glucose readings; the heart-rate query hands back no list. *)
Definition hk_two_readings : HK.Module_ :=
  {| HK.initHealthKit := fun _ => None;
     HK.getBloodGlucoseSamples :=
       fun _ => {| HK.err := None;
                   HK.res := Some [hk_glucose_7_8; hk_glucose_typed] |};
     HK.getHeartRateSamples := fun _ => {| HK.err := None; HK.res := None |};
     HK.getBloodPressureSamples := fun _ => no_records;
     HK.getDailyStepCountSamples := fun _ => no_records;
     HK.getAppleExerciseTime := fun _ => no_records;
     HK.getElectrocardiogramSamples := fun _ => no_records |}.

(** *** Records at the edge *)

Definition hk_glucose_only (l : list HK.GlucoseValue) : HK.Module_ :=
  {| HK.initHealthKit := fun _ => None;
     HK.getBloodGlucoseSamples :=
       fun _ => {| HK.err := None; HK.res := Some l |};
     HK.getHeartRateSamples := fun _ => no_records;
     HK.getBloodPressureSamples := fun _ => no_records;
     HK.getDailyStepCountSamples := fun _ => no_records;
     HK.getAppleExerciseTime := fun _ => no_records;
     HK.getElectrocardiogramSamples := fun _ => no_records |}.

Definition store_glucose (l : list HC.GlucoseRecord) : Store :=
  {| st_glucose := Some l; st_heart := Some []; st_pressure := Some [];
     st_steps := Some []; st_exercise := Some [] |}.

Definition store_steps (l : list HC.StepsRecord) : Store :=
  {| st_glucose := Some []; st_heart := Some []; st_pressure := Some [];
     st_steps := Some l; st_exercise := Some [] |}.

(** A reading of 0 mmol/L, on either connector, and one of 0 mg/dL. *)
Definition hk_glucose_zero_mmol : HK.GlucoseValue :=
  {| HK.g_value := Some (Fin 0);
     HK.g_unit := Some "mmol/L"%string;
     HK.g_startDate := t0 + 3600000;
     HK.g_metadata := Some {| HK.HKWasUserEntered := Some false |} |}.

Definition hc_glucose_zero_mmol : HC.GlucoseRecord :=
  {| HC.g_time := t0 + 3600000;
     HC.g_level :=
       Some {| HC.inMgPerDl := None; HC.inMmolPerL := Some (Fin 0) |};
     HC.g_metadata := Some {| HC.dataOrigin := Some "com.vendor.cgm"%string |} |}.

Definition hc_glucose_zero_mg : HC.GlucoseRecord :=
  {| HC.g_time := t0 + 3600000;
     HC.g_level :=
       Some {| HC.inMgPerDl := Some (Fin 0); HC.inMmolPerL := None |};
     HC.g_metadata := Some {| HC.dataOrigin := Some "com.vendor.cgm"%string |} |}.

(** A HealthKit reading of 100 mg/dL that carries no metadata at all. *)
Definition hk_glucose_bare : HK.GlucoseValue :=
  {| HK.g_value := Some (Fin 100);
     HK.g_unit := Some "mg/dL"%string;
     HK.g_startDate := t0 + 7200000;
     HK.g_metadata := None |}.

(** Ten steps from T0 on, in a record that carries no [endTime]. *)
Definition hc_steps_open : HC.StepsRecord :=
  {| HC.s_startTime := t0;
     HC.s_endTime := Unusable;
     HC.s_count := Some (Fin 10) |}.

(** A session from T0 on that carries no [endTime], and one that ends
    ten minutes before it starts. *)
Definition hc_exercise_open : HC.ExerciseRecord :=
  {| HC.ex_startTime := t0; HC.ex_endTime := Unusable |}.

Definition hc_exercise_backwards : HC.ExerciseRecord :=
  {| HC.ex_startTime := t0 + 600000; HC.ex_endTime := t0 |}.

(** A heart-rate reading of 62 bpm that carries no [startDate]. *)
Definition hk_heart_undated : HK.HealthValue :=
  {| HK.v_value := Some (Fin 62); HK.v_startDate := Unusable |}.

Definition hk_undated_reading : HK.Module_ :=
  {| HK.initHealthKit := fun _ => None;
     HK.getBloodGlucoseSamples := fun _ => no_records;
     HK.getHeartRateSamples :=
       fun _ => {| HK.err := None; HK.res := Some [hk_heart_undated] |};
     HK.getBloodPressureSamples := fun _ => no_records;
     HK.getDailyStepCountSamples := fun _ => no_records;
     HK.getAppleExerciseTime := fun _ => no_records;
     HK.getElectrocardiogramSamples := fun _ => no_records |}.

(** What that reading normalises to. *)
Definition sample_undated : HealthSample :=
  HeartRateSample (new_Date Unusable) {| bpm := Fin 62 |}.

End ProviderScenario.

(* ===================================================================== *)
(** ** src/health/healthProvider.ts: the availability probe *)
(* ===================================================================== *)

Module Connector.

Import HealthProvider.

(** [ConnectorStatus] of healthTypes.ts. *)
Inductive ConnectorStatus : Type :=
| Available
| Unavailable (reason : string).

(** A device: the world of the provider, and what the two probing entry
    points of the native modules answer.  [AppleHealthKit.isAvailable]
    hands [(error, results)] to its callback, unless the call itself
    raises; [initialize()] resolves to a boolean or rejects. *)
Record Device : Type :=
  { world : World;
    isAvailable : Outcome (HK.Callback bool);
    initialize : Outcome bool }.

Inductive Call : Type :=
| ImportModule (module : string)
| IsAvailable
| Initialize.

Definition getConnectorStatus (d : Device) : Eff Call ConnectorStatus :=
  if PlatformOS_eqb (OS (world d)) ios then
    try_catch
      (AppleHealthKit <- call (ImportModule "react-native-health")
                           (import_health (world d)) ;;
       cb <- call IsAvailable (isAvailable d) ;;
       if truthy_flag (HK.res cb) then ret Available
       else ret (Unavailable "HealthKit not available"))%async
      (fun e =>
         ret (Unavailable
                (message e ?? "HealthKit module not available"%string)%async))
  else if PlatformOS_eqb (OS (world d)) android then
    try_catch
      (hc <- call (ImportModule "react-native-health-connect")
               (import_health_connect (world d)) ;;
       ok <- call Initialize (initialize d) ;;
       if negb ok then ret (Unavailable "Health Connect init failed")
       else ret Available)%async
      (fun e =>
         ret (Unavailable
                (message e ?? "Health Connect module not available"%string)%async))
  else
    ret (Unavailable "Connectors not available on web").

End Connector.

(* ===================================================================== *)
(** ** app/settings.tsx: the handlers of the settings screen *)
(* ===================================================================== *)

Module SettingsScreen.

Import ApiTypes HealthProvider.

(** What a handler does to the outside: the state setters of the screen,
    the alerts it raises, and the calls of the functions it awaits. *)
Inductive Call : Type :=
| SetBusy (busy : bool)
| SetConnectorStatus (status : string)
| Alert (title body : string)
| Status (c : Connector.Call)
| Provider (c : HealthProvider.Call)
| Api (c : Sync.Call).

(** What the screen closes over: the device, the HTTP client, the clock
    read by [new Date()], and the values of the two stores. *)
Record App : Type :=
  { device : Connector.Device;
    api : Sync.ApiClient;
    now : Timestamp;
    userId : string;
    storageMode : StorageMode }.

(** An awaited function of another module, its calls relabelled. *)
Definition lift {E F A} (f : E -> F) (c : Eff E A) : Eff F A :=
  (map f (fst c), snd c).

Definition ui (c : Call) : Eff Call unit := call c (Ok tt).

(** [try { c } finally { f }] *)
Definition try_finally {E A} (c : Eff E A) (f : Eff E unit) : Eff E A :=
  let (t, r) := c in
  let (t', r') := f in
  (t ++ t',
   match r' with
   | Ok _ => r
   | Throw e => Throw e
   end).

(** A whole number in a template literal. *)
Definition show (z : Z) : string := NilZero.string_of_int (Z.to_int z).

(** [connectorStatus.startsWith("Available")] (line 32) *)
Definition isNative (connectorStatus : string) : bool :=
  String.prefix "Available" connectorStatus.

(** What [refreshStatus] stores for a status (lines 36-37). *)
Definition status_text (s : Connector.ConnectorStatus) : string :=
  match s with
  | Connector.Available => "Available"
  | Connector.Unavailable reason => "Unavailable: " ++ reason
  end.

Definition refreshStatus (app : App) : Eff Call unit :=
  (s <- lift Status (Connector.getConnectorStatus (device app)) ;;
   ui (SetConnectorStatus (status_text s)))%async.

Definition onConnect (app : App) : Eff Call unit :=
  (_ <- ui (SetBusy true) ;;
   try_finally
     (res <- lift Provider (requestPermissions (Connector.world (device app))) ;;
      if negb (granted res) then
        ui (Alert "Permissions not granted" (reason res ?? ""%string))
      else
        (_ <- ui (Alert "Connected" "Permissions granted.") ;;
         refreshStatus app))
     (ui (SetBusy false)))%async.

Definition onSyncLast24h (app : App) : Eff Call unit :=
  (_ <- ui (SetBusy true) ;;
   try_finally
     (try_catch
        (let end_ := new_Date (now app) in
         let start :=
           Date_of_number (sub (getTime end_) (of_Z (24 * 60 * 60 * 1000))) in
         read <- lift Provider
                   (readLast24h (Connector.world (device app))
                      {| HealthTypes.start := start;
                         HealthTypes.end_ := end_ |}) ;;
         if truthy_string (unavailable read) then
           ui (Alert "Unavailable" (unavailable read ?? ""%string))
         else if (List.length (samples read) =? 0)%nat then
           ui (Alert "No data" "No samples found in the last 24h.")
         else
           (up <- lift Api
                    (Sync.uploadToBackend (api app)
                       {| Sync.userId := userId app;
                          Sync.storageMode := storageMode app;
                          Sync.opts_samples := samples read |}) ;;
            ui (Alert "Sync complete"
                  ("Uploaded: " ++ show (Sync.uploaded up) ++ ". Skipped: "
                     ++ show (Sync.skipped up) ++ "."))))
        (fun e =>
           ui (Alert "Sync failed" (message e ?? "Please try again."%string))))
     (ui (SetBusy false)))%async.

End SettingsScreen.

(* ===================================================================== *)
(** ** app/add.tsx: the default time stamp of a manual entry *)
(* ===================================================================== *)

Module AddScreen.

(** What [isoNowLocalMinute] reads: the clock behind [new Date()], which
    is always a valid date. *)
Record Env : Type :=
  { now : Timestamp;
    now_valid : (Z.abs now <=? max_time) = true }.

(** [isoNowLocalMinute]: the current minute.  [setSeconds(0, 0)] works on
    local time; zone offsets are whole minutes, so it clears the same
    seconds and milliseconds in UTC. *)
Definition isoNowLocalMinute (env : Env) : Outcome string :=
  toISOString (new_Date (now env - now env mod 60000)).

End AddScreen.

(* ===================================================================== *)
(** ** Views of the screens' call logs *)
(* ===================================================================== *)

Module ScreenView.

Import ApiTypes SampleView HealthProvider ProviderView.

(** The alerts raised, in order, as (title, body). *)
Definition alerts (t : list SettingsScreen.Call) : list (string * string) :=
  flat_map (fun c =>
              match c with
              | SettingsScreen.Alert title body => [(title, body)]
              | _ => []
              end) t.

(** The HTTP requests made, in order. *)
Definition requests (t : list SettingsScreen.Call) : list Sync.Call :=
  flat_map (fun c =>
              match c with
              | SettingsScreen.Api r => [r]
              | _ => []
              end) t.

(** The statuses stored, in order. *)
Definition statuses (t : list SettingsScreen.Call) : list string :=
  flat_map (fun c =>
              match c with
              | SettingsScreen.SetConnectorStatus st => [st]
              | _ => []
              end) t.

(** The window a sync reads: the 24 hours up to now. *)
Definition last24h (app : SettingsScreen.App) : HealthReadWindow :=
  {| start :=
       Date_of_number
         (sub (getTime (new_Date (SettingsScreen.now app)))
            (of_Z (24 * 60 * 60 * 1000)));
     end_ := new_Date (SettingsScreen.now app) |}.

(** The fallback texts of the probe. *)
Definition probe_fallback (os : PlatformOS) : string :=
  match os with
  | ios => "HealthKit module not available"
  | android => "Health Connect module not available"
  | _ => "Connectors not available on web"
  end.

(** The upload a sync makes for what it has read. *)
Definition upload_of (app : SettingsScreen.App) (read : HealthReadResult)
  : Eff Sync.Call Sync.SyncResult :=
  Sync.uploadToBackend (SettingsScreen.api app)
    {| Sync.userId := SettingsScreen.userId app;
       Sync.storageMode := SettingsScreen.storageMode app;
       Sync.opts_samples := samples read |}.

(** The text of the alert that closes a completed sync. *)
Definition sync_complete_text (up : Sync.SyncResult) : string :=
  "Uploaded: " ++ SettingsScreen.show (Sync.uploaded up) ++ ". Skipped: "
    ++ SettingsScreen.show (Sync.skipped up) ++ ".".

Definition sync_failed_alert (e : Error) : SettingsScreen.Call :=
  SettingsScreen.Alert "Sync failed" (message e ?? "Please try again."%string)%async.

(** What a sync does once the read has settled. *)
Definition sync_after (app : SettingsScreen.App)
    (settled : Outcome HealthReadResult) : list SettingsScreen.Call :=
  match settled with
  | Throw e => [sync_failed_alert e]
  | Ok read =>
      if truthy_string (unavailable read) then
        [SettingsScreen.Alert "Unavailable" (unavailable read ?? ""%string)%async]
      else if (List.length (samples read) =? 0)%nat then
        [SettingsScreen.Alert "No data" "No samples found in the last 24h."]
      else
        map SettingsScreen.Api (trace (upload_of app read))
          ++ [match outcome (upload_of app read) with
              | Ok up =>
                  SettingsScreen.Alert "Sync complete" (sync_complete_text up)
              | Throw e => sync_failed_alert e
              end]
  end.

(** The order in which a read lays out the categories. *)
Definition category_rank (t : SampleType) : nat :=
  match t with
  | blood_glucose => 0
  | heart_rate => 1
  | blood_pressure => 2
  | steps => 3
  | exercise_minutes => 4
  | ecg => 5
  end.

(** A list laid out by category, no category before rank [k]. *)
Definition laid_out_from (k : nat) (l : list HealthSample) : Prop :=
  StronglySorted le (map (fun s => category_rank (type_of s)) l)
  /\ Forall (fun s => (k <= category_rank (type_of s))%nat) l.

(** The number of vendor records the six HealthKit queries hand back. *)
Definition ios_record_count (hk : HK.Module_) (window : HealthReadWindow)
  : nat :=
  (List.length (HK.res (HK.getBloodGlucoseSamples hk (ios_opts window)) ?? [])
   + List.length (HK.res (HK.getHeartRateSamples hk (ios_opts window)) ?? [])
   + List.length (HK.res (HK.getBloodPressureSamples hk (ios_opts window)) ?? [])
   + List.length
       (HK.res (HK.getDailyStepCountSamples hk (ios_steps_opts window)) ?? [])
   + List.length (HK.res (HK.getAppleExerciseTime hk (ios_opts window)) ?? [])
   + List.length
       (HK.res (HK.getElectrocardiogramSamples hk (ios_ecg_opts window)) ?? [])
  )%async%nat.

(** The records of one Health Connect read, none if it was rejected. *)
Definition records_read {R} (settled : Outcome (option (HC.Response R)))
  : list R :=
  match settled with
  | Ok res => records_or_empty res
  | Throw _ => []
  end.

Definition android_record_count (hc : HC.Module_) (window : HealthReadWindow)
  : nat :=
  (List.length (records_read (HC.readRecords hc HC.BloodGlucose (android_opts window)))
   + List.length (records_read (HC.readRecords hc HC.HeartRate (android_opts window)))
   + List.length (records_read (HC.readRecords hc HC.BloodPressure (android_opts window)))
   + List.length (records_read (HC.readRecords hc HC.Steps (android_opts window)))
   + List.length
       (records_read (HC.readRecords hc HC.ExerciseSession (android_opts window)))
  )%nat.

Definition heart_rate_data (s : HealthSample) : option HeartRateData :=
  match s with
  | HeartRateSample _ d => Some d
  | _ => None
  end.

Definition exercise_data (s : HealthSample) : option ExerciseData :=
  match s with
  | ExerciseSample _ d => Some d
  | _ => None
  end.

(** The reading a Health Connect heart-rate record offers: its own
    [beatsPerMinute], or else that of its first nested sample. *)
Definition android_heart_reading (h : HC.HeartRateRecord) : option number :=
  match HC.h_beatsPerMinute h with
  | Some v => Some v
  | None =>
      match HC.h_samples h with
      | Some samples => match hd_error samples with
                        | Some s0 => HC.s_beatsPerMinute s0
                        | None => None
                        end
      | None => None
      end
  end.

End ScreenView.

Module ScreenScenario.

Import ApiTypes HealthProvider.

(** A backend that reports more insertions than it was sent. *)
Definition backend_inserts_7 : Sync.ApiClient :=
  {| Sync.post := fun _ _ => Ok {| Sync.inserted := 7 |} |}.

(** An iPhone whose HealthKit holds two glucose readings. *)
Definition iphone : Connector.Device :=
  {| Connector.world :=
       ProviderScenario.ios_with ProviderScenario.hk_two_readings;
     Connector.isAvailable :=
       Ok {| HK.err := None; HK.res := Some true |};
     Connector.initialize := Throw ProviderScenario.module_missing |}.

(** An Android phone serving the mixed store, granting one permission. *)
Definition android_phone : Connector.Device :=
  {| Connector.world :=
       ProviderScenario.android_with
         (ProviderScenario.hc_serving
            [{| HC.accessType := "read"; HC.recordType := HC.Steps |}]
            ProviderScenario.store_mixed);
     Connector.isAvailable := Throw ProviderScenario.module_missing;
     Connector.initialize := Ok true |}.

(** An iPhone whose HealthKit holds one heart-rate reading without
    date. *)
Definition iphone_undated : Connector.Device :=
  {| Connector.world :=
       ProviderScenario.ios_with ProviderScenario.hk_undated_reading;
     Connector.isAvailable :=
       Ok {| HK.err := None; HK.res := Some true |};
     Connector.initialize := Throw ProviderScenario.module_missing |}.

(** An iPhone on which the native module does not load. *)
Definition iphone_no_module : Connector.Device :=
  {| Connector.world :=
       {| OS := ios;
          import_health := Throw ProviderScenario.module_missing;
          import_health_connect := Throw ProviderScenario.module_missing |};
     Connector.isAvailable := Throw ProviderScenario.module_missing;
     Connector.initialize := Throw ProviderScenario.module_missing |}.

Definition browser : Connector.Device :=
  {| Connector.world := ProviderScenario.web_world;
     Connector.isAvailable := Throw ProviderScenario.module_missing;
     Connector.initialize := Throw ProviderScenario.module_missing |}.

Definition app_on (d : Connector.Device) (client : Sync.ApiClient)
    (mode : StorageMode) : SettingsScreen.App :=
  {| SettingsScreen.device := d;
     SettingsScreen.api := client;
     SettingsScreen.now := ProviderScenario.t0 + 86400000;
     SettingsScreen.userId := "u1";
     SettingsScreen.storageMode := mode |}.

(** An upload of what a read handed back for a record without date. *)
Definition upload_undated : Sync.UploadOpts :=
  {| Sync.userId := "u1";
     Sync.storageMode := raw;
     Sync.opts_samples := [ProviderScenario.sample_undated] |}.

(** A clock that reads 22:13:32.345 on 14 November 2023. *)
Definition add_env : AddScreen.Env :=
  {| AddScreen.now := ProviderScenario.t0 + 12345;
     AddScreen.now_valid := eq_refl |}.

End ScreenScenario.

(* ===================================================================== *)
(** * Properties of the sync pipeline *)
(* ===================================================================== *)

Import ApiTypes SampleView.

Section SyncProperties.

Import Sync.

Variable api : ApiClient.

(** Serialisation goes sample by sample and stops at the first sample
    whose date has no ISO text. *)
Lemma toIngestSamples_cons (s : HealthSample) (l : list HealthSample) :
  toIngestSamples (s :: l)
  = if dated s then
      match toIngestSamples l with
      | Ok wire => Ok (wire_of s :: wire)
      | Throw e => Throw e
      end
    else Throw RangeError.
Proof.
  unfold toIngestSamples. cbn [map_throwing].
  unfold dated, wire_of, iso_text, toISOString.
  destruct (time_value (timestamp_of s)); [| reflexivity].
  destruct s; reflexivity.
Qed.

(** Each sample is serialised on its own: tag, data object and time
    stamp are kept, [end_time] stays unset. *)
Lemma toIngestSamples_dated (l : list HealthSample) :
  forallb dated l = true -> toIngestSamples l = Ok (map wire_of l).
Proof.
  induction l as [|s l IH]; [reflexivity |].
  cbn [forallb map]. intros H. apply andb_prop in H. destruct H as [Hs Hl].
  rewrite toIngestSamples_cons, Hs, (IH Hl). reflexivity.
Qed.

(** One sample with an invalid date makes the whole serialisation throw. *)
Lemma toIngestSamples_undated (l : list HealthSample) :
  forallb dated l = false -> toIngestSamples l = Throw RangeError.
Proof.
  induction l as [|s l IH]; [discriminate |].
  cbn [forallb]. intros H. rewrite toIngestSamples_cons.
  destruct (dated s); [| reflexivity].
  rewrite (IH H). reflexivity.
Qed.

Lemma toIngestSamples_map (l : list HealthSample) (wire : list IngestSample) :
  toIngestSamples l = Ok wire ->
  forallb dated l = true /\ wire = map wire_of l.
Proof.
  intros H. destruct (forallb dated l) eqn:Hd.
  - rewrite (toIngestSamples_dated l Hd) in H. inversion H. split; reflexivity.
  - rewrite (toIngestSamples_undated l Hd) in H. discriminate.
Qed.

Lemma upload_local_only_run (opts : UploadOpts) :
  storageMode opts = local_only ->
  uploadToBackend api opts =
    ([], Ok {| uploaded := 0;
               skipped := Z.of_nat (List.length (opts_samples opts)) |}).
Proof.
  intros Hmode. unfold uploadToBackend. rewrite Hmode. reflexivity.
Qed.

(** Outside [local_only] the samples are serialised first; if that
    succeeds exactly one request is issued, and the call settles as that
    request does. *)
Lemma upload_remote_run (opts : UploadOpts) :
  storageMode opts <> local_only ->
  uploadToBackend api opts
  = match toIngestSamples (opts_samples opts) with
    | Throw e => ([], Throw e)
    | Ok wire =>
        let payload :=
          {| user_id := userId opts;
             storage_mode := storageMode opts;
             payload_samples := wire |} in
        ([Post "/samples" payload],
         match post api "/samples" payload with
         | Ok res =>
             Ok {| uploaded := inserted res;
                   skipped :=
                     Z.of_nat (List.length (opts_samples opts))
                     - inserted res |}
         | Throw e => Throw e
         end)
    end.
Proof.
  intros Hmode. unfold uploadToBackend.
  destruct (storageMode opts) eqn:E; try congruence;
    cbn [StorageMode_eqb]; unfold step, bind, call, ret;
    destruct (toIngestSamples (opts_samples opts)) as [wire|e];
    try reflexivity;
    cbv zeta; destruct (post api _ _); reflexivity.
Qed.

End SyncProperties.

(** C1.  Whenever [uploadToBackend] returns a result, for every storage
    mode and every inserted count the backend reports, [uploaded] and
    [skipped] add up to the number of samples handed in. *)
Theorem upload_accounting
    (api : Sync.ApiClient) (opts : Sync.UploadOpts) (r : Sync.SyncResult) :
  outcome (Sync.uploadToBackend api opts) = Ok r ->
  Sync.uploaded r + Sync.skipped r
  = Z.of_nat (List.length (Sync.opts_samples opts)).
Proof.
  intros Hret.
  destruct (Sync.storageMode opts) eqn:Hmode.
  1, 2:
    rewrite upload_remote_run in Hret by congruence;
    destruct (Sync.toIngestSamples _); [| discriminate];
    cbn in Hret;
    destruct (Sync.post api _ _); inversion Hret; subst; cbn; lia.
  rewrite (upload_local_only_run api opts Hmode) in Hret.
  inversion Hret; subst; cbn; lia.
Qed.

Lemma upload_accounting_witness :
  outcome (Sync.uploadToBackend Scenario.backend_inserts_3 Scenario.upload_raw)
  = Ok {| Sync.uploaded := 3; Sync.skipped := 2 |}
  /\ 3 + 2 = Z.of_nat (List.length Scenario.five_samples).
Proof.
  split.
  - reflexivity.
  - exact (upload_accounting Scenario.backend_inserts_3 Scenario.upload_raw
             {| Sync.uploaded := 3; Sync.skipped := 2 |} eq_refl).
Defined.

(** The call does return whenever the samples carry valid dates and the
    request is answered. *)
Lemma upload_returns (api : Sync.ApiClient) (opts : Sync.UploadOpts) :
  forallb dated (Sync.opts_samples opts) = true ->
  (forall path payload, exists res, Sync.post api path payload = Ok res) ->
  exists r, outcome (Sync.uploadToBackend api opts) = Ok r.
Proof.
  intros Hdated Hanswers.
  destruct (Sync.storageMode opts) eqn:Hmode.
  1, 2:
    rewrite upload_remote_run by congruence;
    rewrite (toIngestSamples_dated _ Hdated); cbv zeta;
    match goal with
    | |- context [Sync.post _ ?a ?b] =>
        destruct (Hanswers a b) as [res Hres]; rewrite Hres
    end; eexists; reflexivity.
  rewrite (upload_local_only_run api opts Hmode). eexists; reflexivity.
Qed.

(** A failed request fails the whole call. *)
Lemma upload_fails_as_a_unit (api : Sync.ApiClient) (opts : Sync.UploadOpts) e :
  Sync.storageMode opts <> local_only ->
  forallb dated (Sync.opts_samples opts) = true ->
  (forall path payload, Sync.post api path payload = Throw e) ->
  outcome (Sync.uploadToBackend api opts) = Throw e.
Proof.
  intros Hmode Hdated Hdown.
  rewrite upload_remote_run by assumption.
  rewrite (toIngestSamples_dated _ Hdated). cbv zeta. unfold outcome. cbn [snd].
  rewrite Hdown. reflexivity.
Qed.

(** C2.  With [storageMode = local_only] no call leaves the function (no
    request is issued, so no payload is handed to the HTTP client) and the
    result is [{uploaded: 0, skipped: samples.length}], whatever the
    backend would have answered. *)
Theorem local_only_short_circuit
    (api : Sync.ApiClient) (opts : Sync.UploadOpts) :
  Sync.storageMode opts = local_only ->
  trace (Sync.uploadToBackend api opts) = []
  /\ outcome (Sync.uploadToBackend api opts)
     = Ok {| Sync.uploaded := 0;
             Sync.skipped := Z.of_nat (List.length (Sync.opts_samples opts)) |}.
Proof.
  intros Hmode.
  rewrite (upload_local_only_run api opts Hmode). split; reflexivity.
Qed.

Lemma local_only_short_circuit_witness :
  trace (Sync.uploadToBackend Scenario.backend_down Scenario.upload_local) = []
  /\ outcome (Sync.uploadToBackend Scenario.backend_down Scenario.upload_local)
     = Ok {| Sync.uploaded := 0; Sync.skipped := 5 |}.
Proof.
  exact (local_only_short_circuit Scenario.backend_down Scenario.upload_local
           eq_refl).
Defined.

(* ===================================================================== *)
(** * Properties of the platform connectors *)
(* ===================================================================== *)

Import HealthProvider ProviderView.

Lemma flat_map_singleton {A B} (f : A -> B) (l : list A) :
  flat_map (fun x => [f x]) l = map f l.
Proof.
  induction l as [|a l IH]; cbn; [reflexivity | now rewrite IH].
Qed.

Section ReadWindow.

Variable w : World.
Variable window : HealthReadWindow.

(** On iOS with the module loaded: the bounds of the window are printed,
    six queries are issued, and the read settles as their join does.  A
    bound that is no valid date stops the read before any query. *)
Lemma readLast24h_ios_run (hk : HK.Module_) :
  OS w = ios ->
  import_health w = Ok hk ->
  trace (readLast24h w window)
  = Import "react-native-health" :: ios_query_calls window
  /\ outcome (readLast24h w window)
     = if bounded window then
         match first_failure (ios_reads hk window) with
         | Some e => Throw e
         | None =>
             Ok {| samples :=
                     List.concat (map contributes (ios_reads hk window));
                   unavailable := None |}
         end
       else Throw RangeError.
Proof.
  intros Hos Himp.
  unfold readLast24h. rewrite Hos. cbn [PlatformOS_eqb]. rewrite Himp.
  unfold ios_reads, ios_query_calls, bounded, ios_opts, ios_steps_opts,
    ios_ecg_opts, iso_text, toISOString.
  destruct (time_value (start window)) as [s|]; [| split; reflexivity].
  destruct (time_value (end_ window)) as [e|]; [| split; reflexivity].
  generalize (iso_string s) (iso_string e). intros sd ed.
  unfold ios_category, p, call, step, both, bind.
  cbn.
  destruct (HK.getBloodGlucoseSamples hk (ios_opts_of sd ed)) as [e1 r1].
  destruct (HK.getHeartRateSamples hk (ios_opts_of sd ed)) as [e2 r2].
  destruct (HK.getBloodPressureSamples hk (ios_opts_of sd ed)) as [e3 r3].
  destruct (HK.getDailyStepCountSamples hk (ios_steps_opts_of sd ed))
    as [e4 r4].
  destruct (HK.getAppleExerciseTime hk (ios_opts_of sd ed)) as [e5 r5].
  destruct (HK.getElectrocardiogramSamples hk (ios_ecg_opts_of sd ed))
    as [e6 r6].
  cbn.
  destruct e1; [split; reflexivity |].
  destruct e2; [split; reflexivity |].
  destruct e3; [split; reflexivity |].
  destruct e4; [split; reflexivity |].
  destruct e5; [split; reflexivity |].
  destruct e6; [split; reflexivity |].
  cbn. rewrite app_nil_r. split; reflexivity.
Qed.

(** On Android with the module loaded: the bounds of the window are
    printed, five reads are issued, and the read settles as their join
    does.  A bound that is no valid date stops the read before any
    query. *)
Lemma readLast24h_android_run (hc : HC.Module_) :
  OS w = android ->
  import_health_connect w = Ok hc ->
  trace (readLast24h w window)
  = Import "react-native-health-connect" :: android_query_calls window
  /\ outcome (readLast24h w window)
     = if bounded window then
         match first_failure (android_reads hc window) with
         | Some e => Throw e
         | None =>
             Ok {| samples :=
                     List.concat (map contributes (android_reads hc window));
                   unavailable := None |}
         end
       else Throw RangeError.
Proof.
  intros Hos Himp.
  unfold readLast24h. rewrite Hos. cbn [PlatformOS_eqb]. rewrite Himp.
  unfold android_reads, android_query_calls, bounded, android_opts, iso_text,
    toISOString.
  destruct (time_value (start window)) as [s|]; [| split; reflexivity].
  destruct (time_value (end_ window)) as [e|]; [| split; reflexivity].
  generalize (iso_string s) (iso_string e). intros sd ed.
  unfold android_category, call, step, both, bind.
  cbn.
  destruct (HC.readRecords hc HC.BloodGlucose (android_opts_of sd ed))
    as [r1|e1]; [| split; reflexivity].
  destruct (HC.readRecords hc HC.HeartRate (android_opts_of sd ed))
    as [r2|e2]; [| split; reflexivity].
  destruct (HC.readRecords hc HC.BloodPressure (android_opts_of sd ed))
    as [r3|e3]; [| split; reflexivity].
  destruct (HC.readRecords hc HC.Steps (android_opts_of sd ed))
    as [r4|e4]; [| split; reflexivity].
  destruct (HC.readRecords hc HC.ExerciseSession (android_opts_of sd ed))
    as [r5|e5]; [| split; reflexivity].
  cbn. rewrite !flat_map_singleton, app_nil_r. split; reflexivity.
Qed.

End ReadWindow.

Section ReadWindowEdges.

Variable w : World.
Variable window : HealthReadWindow.

(** A native module that does not load makes the read itself fail. *)
Lemma readLast24h_import_fails (e : Error) :
  (OS w = ios /\ import_health w = Throw e)
  \/ (OS w = android /\ import_health_connect w = Throw e) ->
  outcome (readLast24h w window) = Throw e.
Proof.
  intros [[Hos Himp] | [Hos Himp]];
    unfold readLast24h; rewrite Hos; cbn [PlatformOS_eqb]; rewrite Himp;
    reflexivity.
Qed.

(** Any other platform is answered without a single outside call. *)
Lemma readLast24h_unsupported :
  OS w <> ios ->
  OS w <> android ->
  readLast24h w window
  = ([], Ok {| samples := [];
               unavailable := Some "Unsupported platform"%string |}).
Proof.
  intros Hios Handroid. unfold readLast24h.
  destruct (OS w); try congruence; reflexivity.
Qed.

(** A window one of whose bounds is an invalid date has no ISO text to
    query with: the read throws right after the import. *)
Lemma readLast24h_unbounded_window :
  bounded window = false ->
  (forall hk,
      OS w = ios -> import_health w = Ok hk ->
      readLast24h w window
      = ([Import "react-native-health"], Throw RangeError))
  /\ (forall hc,
         OS w = android -> import_health_connect w = Ok hc ->
         readLast24h w window
         = ([Import "react-native-health-connect"], Throw RangeError)).
Proof.
  intros Hb. split.
  - intros hk Hos Himp.
    destruct (readLast24h_ios_run w window hk Hos Himp) as [Htrace Hout].
    unfold ios_query_calls in Htrace. rewrite Hb in Htrace, Hout.
    destruct (readLast24h w window) as [t r]. cbn in Htrace, Hout.
    subst. reflexivity.
  - intros hc Hos Himp.
    destruct (readLast24h_android_run w window hc Hos Himp) as [Htrace Hout].
    unfold android_query_calls in Htrace. rewrite Hb in Htrace, Hout.
    destruct (readLast24h w window) as [t r]. cbn in Htrace, Hout.
    subst. reflexivity.
Qed.

(** A read that returns was asked about a window with valid bounds, or
    on a platform without connector. *)
Lemma readLast24h_returns_bounded (r : HealthReadResult) :
  OS w = ios \/ OS w = android ->
  outcome (readLast24h w window) = Ok r ->
  bounded window = true.
Proof.
  intros [Hos | Hos] Hr.
  - destruct (import_health w) as [hk|e] eqn:Himp.
    + rewrite (proj2 (readLast24h_ios_run w window hk Hos Himp)) in Hr.
      destruct (bounded window); [reflexivity | discriminate].
    + rewrite (readLast24h_import_fails e) in Hr by (left; split; assumption).
      discriminate.
  - destruct (import_health_connect w) as [hc|e] eqn:Himp.
    + rewrite (proj2 (readLast24h_android_run w window hc Hos Himp)) in Hr.
      destruct (bounded window); [reflexivity | discriminate].
    + rewrite (readLast24h_import_fails e) in Hr by (right; split; assumption).
      discriminate.
Qed.

End ReadWindowEdges.

(** C3, as stated, fails: with the glucose query answered and the
    heart-rate query failing (iOS), or the steps read rejected (Android),
    the whole read is rejected and the glucose sample is not returned. *)
Lemma category_failure_rejects_read :
  (platform_reads (ProviderScenario.ios_with ProviderScenario.hk_heart_rate_fails)
     ProviderScenario.day
   = Some (ios_reads ProviderScenario.hk_heart_rate_fails ProviderScenario.day)
   /\ outcome (readLast24h
                 (ProviderScenario.ios_with ProviderScenario.hk_heart_rate_fails)
                 ProviderScenario.day)
      = Throw ProviderScenario.heart_rate_query_failed)
  /\ outcome (readLast24h
                (ProviderScenario.android_with
                   (ProviderScenario.hc_serving [] ProviderScenario.store_steps_fail))
                ProviderScenario.day)
     = Throw ProviderScenario.read_rejected.
Proof. repeat split; reflexivity. Qed.

(** C3, amended.  On an available platform the category queries are
    joined: if one of them fails, the whole read fails with the error of
    a failing category; if none fails, the samples of every category are
    returned, a category without records contributing none.  On an
    unsupported platform the call is short-circuited: no query is made
    and [unavailable] is set. *)
Theorem readLast24h_join (w : World) (window : HealthReadWindow) :
  (forall cats,
      platform_reads w window = Some cats ->
      outcome (readLast24h w window)
      = match first_failure cats with
        | Some e => Throw e
        | None =>
            Ok {| samples := List.concat (map contributes cats);
                  unavailable := None |}
        end)
  /\ (OS w <> ios -> OS w <> android ->
      readLast24h w window
      = ([], Ok {| samples := [];
                   unavailable := Some "Unsupported platform"%string |})).
Proof.
  split.
  - intros cats Hcats. unfold platform_reads in Hcats.
    destruct (bounded window) eqn:Hb; [| discriminate].
    destruct (OS w) eqn:Hos; try discriminate.
    + destruct (import_health w) as [hk|e] eqn:Himp; try discriminate.
      inversion Hcats; subst cats.
      rewrite (proj2 (readLast24h_ios_run w window hk Hos Himp)), Hb.
      reflexivity.
    + destruct (import_health_connect w) as [hc|e] eqn:Himp.
      * assert (cats = android_reads hc window) as ->
            by (destruct (import_health w); congruence).
        rewrite (proj2 (readLast24h_android_run w window hc Hos Himp)), Hb.
        reflexivity.
      * destruct (import_health w); discriminate.
  - apply readLast24h_unsupported.
Qed.

Lemma readLast24h_join_witness :
  outcome (readLast24h
             (ProviderScenario.ios_with ProviderScenario.hk_two_readings)
             ProviderScenario.day)
  = Ok {| samples :=
            [ ios_glucose_sample ProviderScenario.hk_glucose_7_8;
              ios_glucose_sample ProviderScenario.hk_glucose_typed ];
          unavailable := None |}
  /\ readLast24h ProviderScenario.web_world ProviderScenario.day
     = ([], Ok {| samples := [];
                  unavailable := Some "Unsupported platform"%string |}).
Proof.
  split.
  - exact (proj1 (readLast24h_join
                    (ProviderScenario.ios_with ProviderScenario.hk_two_readings)
                    ProviderScenario.day)
             _ eq_refl).
  - apply (proj2 (readLast24h_join ProviderScenario.web_world
                    ProviderScenario.day)); discriminate.
Defined.

(* --------------------------------------------------------------------- *)
(** ** Normalisation of the vendor records *)
(* --------------------------------------------------------------------- *)

Lemma mul_finite (a b : Q) : mul (Fin a) (Fin b) = Fin (a * b).
Proof. reflexivity. Qed.

(** What each connector does with a glucose level.  HealthKit emits
    every record, multiplying a value given in mmol/L by 18.018.  Health
    Connect emits every record given in mg/dL as it is, and a record
    given in mmol/L only, multiplied by 18.018, when its value is
    truthy. *)
Lemma glucose_level_by_connector :
  (forall g : HK.GlucoseValue,
      option_map mg_dl (glucose_data (ios_glucose_sample g))
      = Some (if ios_unit_is_mmol g
              then mul (Number (HK.g_value g)) (Fin 18.018)
              else Number (HK.g_value g)))
  /\ (forall (g : HC.GlucoseRecord) (v : number),
         android_level_mmol g = Some v ->
         map (fun s => option_map mg_dl (glucose_data s))
           (android_glucose_samples g)
         = if truthy v then [Some (mul v (Fin 18.018))] else [])
  /\ (forall (g : HC.GlucoseRecord) (v : number),
         android_level_mg g = Some v ->
         map (fun s => option_map mg_dl (glucose_data s))
           (android_glucose_samples g)
         = [Some v]).
Proof.
  split; [| split].
  - intros g. unfold ios_glucose_sample, ios_unit_is_mmol. cbn.
    destruct (HK.g_unit g) as [u|]; [| reflexivity].
    destruct (String.eqb u "mmolPerL" || String.eqb u "mmol/L"); reflexivity.
  - intros g v Hmmol.
    unfold android_level_mmol in Hmmol. unfold android_glucose_samples.
    destruct (HC.g_level g) as [l|]; [| discriminate].
    destruct (HC.inMgPerDl l); [discriminate |].
    rewrite Hmmol. destruct (truthy v); reflexivity.
  - intros g v Hmg.
    unfold android_level_mg in Hmg. unfold android_glucose_samples.
    destruct (HC.g_level g) as [l|]; [| discriminate].
    rewrite Hmg. reflexivity.
Qed.

(** On Android a level given in mmol/L only and equal to zero (or not a
    number) is falsy, and the record is not emitted. *)
Lemma android_glucose_falsy_skipped (g : HC.GlucoseRecord) (v : number) :
  android_level_mmol g = Some v ->
  truthy v = false ->
  android_glucose_samples g = [].
Proof.
  intros Hmmol Hfalsy.
  unfold android_level_mmol in Hmmol. unfold android_glucose_samples.
  destruct (HC.g_level g) as [l|]; [| discriminate].
  destruct (HC.inMgPerDl l); [discriminate |].
  rewrite Hmmol, Hfalsy. reflexivity.
Qed.

(** The end-to-end reading of 7.8 mmol/L: 140.5404 mg/dL, tagged [cgm]. *)
Example read_glucose_7_8 :
  exists q,
    outcome (readLast24h
               (ProviderScenario.ios_with ProviderScenario.hk_two_readings)
               ProviderScenario.day)
    = Ok {| samples :=
              [ BloodGlucoseSample
                  (new_Date (ProviderScenario.t0 + 3600000))
                  {| mg_dl := Fin q; source := cgm |};
                BloodGlucoseSample
                  (new_Date (ProviderScenario.t0 + 7200000))
                  {| mg_dl := Fin 95; source := manual |} ];
            unavailable := None |}
    /\ (q == 140.5404)%Q.
Proof. eexists. split; reflexivity. Qed.

(** C4 on the Health Connect connector.  A level of 7.8 mmol/L comes
    back as 7.8 * 18.018 = 140.5404 mg/dL, but a level of 0 mmol/L does
    not come back at all: the conversion sits behind a truthiness test,
    and the record is dropped instead of being emitted with 0 mg/dL.
    HealthKit emits the same reading with 0 * 18.018 mg/dL, and Health
    Connect itself emits a level of 0 given in mg/dL. *)
Theorem android_zero_mmol_dropped :
  (exists q,
      outcome (readLast24h
                 (ProviderScenario.android_with
                    (ProviderScenario.hc_serving []
                       (ProviderScenario.store_glucose
                          [ProviderScenario.hc_glucose_7_8])))
                 ProviderScenario.day)
      = Ok {| samples :=
                [ BloodGlucoseSample
                    (new_Date (ProviderScenario.t0 + 3600000))
                    {| mg_dl := Fin q; source := cgm |} ];
              unavailable := None |}
      /\ (q == 7.8 * 18.018)%Q /\ (q == 140.5404)%Q)
  /\ android_level_mmol ProviderScenario.hc_glucose_zero_mmol = Some (Fin 0)
  /\ outcome (readLast24h
                (ProviderScenario.android_with
                   (ProviderScenario.hc_serving []
                      (ProviderScenario.store_glucose
                         [ProviderScenario.hc_glucose_zero_mmol])))
                ProviderScenario.day)
     = Ok {| samples := []; unavailable := None |}
  /\ (exists q,
         outcome (readLast24h
                    (ProviderScenario.ios_with
                       (ProviderScenario.hk_glucose_only
                          [ProviderScenario.hk_glucose_zero_mmol]))
                    ProviderScenario.day)
         = Ok {| samples :=
                   [ BloodGlucoseSample
                       (new_Date (ProviderScenario.t0 + 3600000))
                       {| mg_dl := Fin q; source := cgm |} ];
                 unavailable := None |}
         /\ (q == 0 * 18.018)%Q /\ (q == 0)%Q)
  /\ outcome (readLast24h
                (ProviderScenario.android_with
                   (ProviderScenario.hc_serving []
                      (ProviderScenario.store_glucose
                         [ProviderScenario.hc_glucose_zero_mg])))
                ProviderScenario.day)
     = Ok {| samples :=
               [ BloodGlucoseSample
                   (new_Date (ProviderScenario.t0 + 3600000))
                   {| mg_dl := Fin 0; source := cgm |} ];
             unavailable := None |}.
Proof.
  split; [eexists; repeat split; reflexivity |].
  split; [reflexivity |].
  split; [reflexivity |].
  split; [eexists; repeat split; reflexivity | reflexivity].
Qed.

(** What each connector does with the source tag.  HealthKit tags a
    sample [manual] exactly when the record's metadata flags it as
    user-entered.  Health Connect tags an emitted sample [cgm] exactly
    when the record's metadata names a data origin. *)
Lemma glucose_source_by_connector :
  (forall g : HK.GlucoseValue,
      option_map source (glucose_data (ios_glucose_sample g))
      = Some (if ios_user_entered g then manual else cgm))
  /\ (forall (g : HC.GlucoseRecord) (s : HealthSample),
         In s (android_glucose_samples g) ->
         option_map source (glucose_data s)
         = Some (if android_has_origin g then cgm else manual)).
Proof.
  split.
  - intros g. unfold ios_glucose_sample, ios_user_entered. cbn.
    destruct (HK.g_metadata g) as [m|]; reflexivity.
  - intros g s Hin. unfold android_glucose_samples in Hin.
    unfold android_has_origin.
    destruct (match HC.g_level g with
              | Some l => HC.inMgPerDl l
              | None => None
              end) as [v|].
    + destruct Hin as [<- | []]. cbn.
      destruct (HC.g_metadata g) as [m|]; reflexivity.
    + destruct (match HC.g_level g with
                | Some l => HC.inMmolPerL l
                | None => None
                end) as [mmol|]; [| destruct Hin].
      destruct (truthy mmol); [| destruct Hin].
      destruct Hin as [<- | []]. cbn.
      destruct (HC.g_metadata g) as [m|]; reflexivity.
Qed.

(** C5 on the Health Connect connector.  A reading of 100 mg/dL whose
    record carries no metadata, hence no mark of any kind, comes back
    tagged [manual]; the claim tags it [cgm], and so does HealthKit for
    the same reading without metadata.  No reading of "marks the data as
    user-entered" off the metadata makes the claim true on Health
    Connect. *)
Theorem android_manual_without_mark :
  outcome (readLast24h
             (ProviderScenario.android_with
                (ProviderScenario.hc_serving []
                   (ProviderScenario.store_glucose
                      [ProviderScenario.hc_glucose_bare])))
             ProviderScenario.day)
  = Ok {| samples :=
            [ BloodGlucoseSample (new_Date (ProviderScenario.t0 + 7200000))
                {| mg_dl := Fin 100; source := manual |} ];
          unavailable := None |}
  /\ outcome (readLast24h
                (ProviderScenario.ios_with
                   (ProviderScenario.hk_glucose_only
                      [ProviderScenario.hk_glucose_bare]))
                ProviderScenario.day)
     = Ok {| samples :=
               [ BloodGlucoseSample (new_Date (ProviderScenario.t0 + 7200000))
                   {| mg_dl := Fin 100; source := cgm |} ];
             unavailable := None |}
  /\ (forall mark : HC.Metadata -> bool,
         android_marked mark ProviderScenario.hc_glucose_bare = false)
  /\ ~ (exists mark : HC.Metadata -> bool,
          forall g s,
            In s (android_glucose_samples g) ->
            (option_map source (glucose_data s) = Some manual
             <-> android_marked mark g = true)).
Proof.
  split; [reflexivity |]. split; [reflexivity |]. split; [reflexivity |].
  intros [mark Hclaim].
  specialize (Hclaim ProviderScenario.hc_glucose_bare _ (or_introl eq_refl)).
  cbn in Hclaim. destruct Hclaim as [Hmanual _].
  specialize (Hmanual eq_refl). discriminate.
Qed.

(* --------------------------------------------------------------------- *)
(** ** Blood pressure *)
(* --------------------------------------------------------------------- *)

(** Health Connect: a record is emitted exactly when it is complete. *)
Lemma android_bp_emitted_iff_complete (b : HC.BloodPressureRecord) :
  List.length (android_blood_pressure_samples b)
  = if android_bp_complete b then 1%nat else 0%nat.
Proof.
  unfold android_blood_pressure_samples, android_bp_complete.
  destruct (HC.b_systolic b) as [sy|]; [| reflexivity].
  destruct (HC.inMillimetersOfMercury sy);
    destruct (HC.b_diastolic b) as [di|]; try reflexivity;
    destruct (HC.inMillimetersOfMercury di); reflexivity.
Qed.

Lemma android_bp_count (l : list HC.BloodPressureRecord) :
  List.length (flat_map android_blood_pressure_samples l)
  = List.length (filter android_bp_complete l).
Proof.
  induction l as [|b l IH]; [reflexivity |].
  cbn [flat_map filter]. rewrite length_app, IH, android_bp_emitted_iff_complete.
  destruct (android_bp_complete b); reflexivity.
Qed.

Lemma filter_shorter {A} (f : A -> bool) (l : list A) :
  (List.length (filter f l) <= List.length l)%nat.
Proof.
  induction l as [|a l IH]; cbn; [lia |].
  destruct (f a); cbn; lia.
Qed.

(** Health Connect: as soon as one record is incomplete, fewer samples
    than records are emitted. *)
Lemma android_bp_incomplete_dropped (l : list HC.BloodPressureRecord) :
  existsb (fun b => negb (android_bp_complete b)) l = true ->
  (List.length (flat_map android_blood_pressure_samples l) < List.length l)%nat.
Proof.
  rewrite android_bp_count.
  induction l as [|b l IH]; cbn; [discriminate |].
  destruct (android_bp_complete b); cbn.
  - intros H. apply IH in H. lia.
  - intros _. pose proof (filter_shorter android_bp_complete l). lia.
Qed.

(** HealthKit: every record is emitted, complete or not. *)
Lemma ios_bp_all_emitted (l : list HK.BloodPressureValue) :
  List.length (map ios_blood_pressure_sample l) = List.length l.
Proof. apply length_map. Qed.

(** C6 on the HealthKit connector: a record without a diastolic value is
    not dropped; it is emitted with [NaN] in its place, so as many
    blood-pressure samples as vendor records come back. *)
Theorem ios_incomplete_bp_emitted :
  ios_bp_complete ProviderScenario.hk_bp_no_diastolic = false
  /\ exists r,
      outcome (readLast24h
                 (ProviderScenario.ios_with ProviderScenario.hk_incomplete_bp)
                 ProviderScenario.day)
      = Ok r
      /\ samples r
         = [ BloodPressureSample
               (new_Date (ProviderScenario.t0 + 3600000))
               {| systolic_mmhg := Fin 120; diastolic_mmhg := NaN |} ]
      /\ List.length (of_type blood_pressure (samples r))
         = List.length [ProviderScenario.hk_bp_no_diastolic].
Proof. split; [reflexivity |]. eexists. repeat split. Qed.

(** The same record on the Health Connect connector is dropped. *)
Example android_incomplete_bp_dropped :
  outcome (readLast24h
             (ProviderScenario.android_with
                (ProviderScenario.hc_serving []
                   {| ProviderScenario.st_glucose := Some [];
                      ProviderScenario.st_heart := Some [];
                      ProviderScenario.st_pressure :=
                        Some [ProviderScenario.hc_bp_no_diastolic;
                              ProviderScenario.hc_bp_full];
                      ProviderScenario.st_steps := Some [];
                      ProviderScenario.st_exercise := Some [] |}))
             ProviderScenario.day)
  = Ok {| samples :=
            [ BloodPressureSample (new_Date (ProviderScenario.t0 + 3600000))
                {| systolic_mmhg := Fin 118; diastolic_mmhg := Fin 76 |} ];
          unavailable := None |}.
Proof. reflexivity. Qed.


(* --------------------------------------------------------------------- *)
(** ** Steps *)
(* --------------------------------------------------------------------- *)

Lemma round_elapsed (a b : Z) :
  Qfloor ((inject_Z b - inject_Z a) / inject_Z 60000 + (1 # 2))
  = whole_minutes a b.
Proof.
  assert (H : ((inject_Z b - inject_Z a) / inject_Z 60000 + (1 # 2)
               == (b - a + 30000) # 60000)%Q).
  { unfold Qeq, Qdiv, Qmult, Qplus, Qminus, Qopp, Qinv, inject_Z. cbn. lia. }
  rewrite H. reflexivity.
Qed.

(** The time value of a date built from a usable field. *)
Lemma getTime_instant (field : TimeField) (ms : Timestamp) :
  instant field = Some ms -> getTime (new_Date field) = of_Z ms.
Proof. unfold instant, getTime. intros ->. reflexivity. Qed.

Lemma getTime_no_instant (field : TimeField) :
  instant field = None -> getTime (new_Date field) = NaN.
Proof. unfold instant, getTime. intros ->. reflexivity. Qed.

(** [Math.round((end.getTime() - start.getTime()) / 60000)] between two
    valid dates. *)
Lemma Math_round_minutes (a b : TimeField) (start end_ : Timestamp) :
  instant a = Some start ->
  instant b = Some end_ ->
  Math_round (div (sub (getTime (new_Date b)) (getTime (new_Date a)))
                (of_Z 60000))
  = of_Z (whole_minutes start end_).
Proof.
  intros Ha Hb.
  rewrite (getTime_instant a start Ha), (getTime_instant b end_ Hb).
  replace (div (sub (of_Z end_) (of_Z start)) (of_Z 60000))
    with (Fin ((inject_Z end_ - inject_Z start) / inject_Z 60000))
    by reflexivity.
  unfold Math_round. rewrite round_elapsed. reflexivity.
Qed.

(** The same expression when one of the two dates is invalid. *)
Lemma Math_round_no_minutes (a b : TimeField) :
  instant a = None \/ instant b = None ->
  Math_round (div (sub (getTime (new_Date b)) (getTime (new_Date a)))
                (of_Z 60000))
  = NaN.
Proof.
  intros [H | H]; rewrite (getTime_no_instant _ H);
    [destruct (getTime (new_Date b)) | ]; reflexivity.
Qed.

(** [Math.max(1, k)] on a whole number. *)
Lemma Math_max_one (k : Z) : Math_max (of_Z 1) (of_Z k) = of_Z (Z.max 1 k).
Proof.
  unfold Math_max, of_Z.
  replace (Qle_bool (inject_Z 1) (inject_Z k)) with (1 <=? k).
  - destruct (Z.leb_spec 1 k).
    + rewrite Z.max_r by lia. reflexivity.
    + rewrite Z.max_l by lia. reflexivity.
  - unfold Qle_bool, inject_Z. cbn. f_equal. lia.
Qed.

(** A divisor that is at least one never divides by zero: a finite count
    gives a finite rate. *)
Lemma div_by_minutes (c : Q) (m : Z) :
  div (Fin c) (of_Z (Z.max 1 m)) = Fin (c / inject_Z (Z.max 1 m)).
Proof.
  unfold div, of_Z.
  assert (H : (inject_Z (Z.max 1 m) ?= 0)%Q = Gt).
  { unfold Qcompare, inject_Z. cbn. rewrite Z.mul_1_r. apply Z.compare_gt_iff. lia. }
  rewrite H. reflexivity.
Qed.

(** A HealthKit daily total is spread over the 1440 minutes of a day. *)
Lemma ios_steps_over_a_day (s : HK.HealthValue) :
  steps_data (ios_steps_sample s)
  = Some {| spm := div (Number (HK.v_value s)) (of_Z 1440);
            interval_minutes := of_Z 1440 |}.
Proof. reflexivity. Qed.

(** A Health Connect steps record whose two times are usable is emitted
    with the rounded length of its interval, clamped to one minute at
    least, and its count divided by that. *)
Lemma android_steps_clamped
    (s : HC.StepsRecord) (start end_ : Timestamp) :
  instant (HC.s_startTime s) = Some start ->
  instant (HC.s_endTime s) = Some end_ ->
  steps_data (android_steps_sample s)
  = Some {| spm := div (Number (HC.s_count s))
                     (of_Z (Z.max 1 (whole_minutes start end_)));
            interval_minutes := of_Z (Z.max 1 (whole_minutes start end_)) |}.
Proof.
  intros Ha Hb. unfold android_steps_sample. cbn [steps_data].
  rewrite (Math_round_minutes _ _ start end_ Ha Hb), Math_max_one.
  reflexivity.
Qed.

(** A Health Connect steps record one of whose times is not usable is
    emitted all the same, and the clamp does not hold: neither the rate
    nor the width is a number. *)
Lemma android_steps_not_clamped (s : HC.StepsRecord) :
  instant (HC.s_startTime s) = None \/ instant (HC.s_endTime s) = None ->
  steps_data (android_steps_sample s)
  = Some {| spm := NaN; interval_minutes := NaN |}.
Proof.
  intros H. unfold android_steps_sample. cbn [steps_data].
  rewrite (Math_round_no_minutes _ _ H).
  destruct (Number (HC.s_count s)); reflexivity.
Qed.

(** Ten steps over a zero-length interval: ten steps per minute over one
    minute; three hundred steps over five minutes: sixty per minute. *)
Example steps_zero_length_interval :
  exists rate,
    android_steps_sample ProviderScenario.hc_steps_instant
    = StepsSample (new_Date ProviderScenario.t0)
        {| spm := Fin rate; interval_minutes := Fin 1 |}
    /\ (rate == 10)%Q.
Proof. eexists. split; reflexivity. Qed.

Example steps_five_minutes :
  exists rate,
    android_steps_sample ProviderScenario.hc_steps_5min
    = StepsSample (new_Date ProviderScenario.t0)
        {| spm := Fin rate; interval_minutes := Fin 5 |}
    /\ (rate == 60)%Q.
Proof. eexists. split; reflexivity. Qed.

(** C7 on the Health Connect connector.  Ten steps in a record that
    carries a start but no end time come back with neither a rate nor a
    width: [Math.max(1, NaN)] is [NaN], so the floor of one minute is
    missed, [interval_minutes] is not at least 1 and [spm] is not
    10 / max(1, m) for any m.  The floor does hold for the same ten steps
    over a zero-length interval: one minute, ten steps per minute. *)
Theorem steps_open_interval_not_clamped :
  (exists r,
      outcome (readLast24h
                 (ProviderScenario.android_with
                    (ProviderScenario.hc_serving []
                       (ProviderScenario.store_steps
                          [ProviderScenario.hc_steps_open])))
                 ProviderScenario.day)
      = Ok r
      /\ samples r
         = [ StepsSample (new_Date ProviderScenario.t0)
               {| spm := NaN; interval_minutes := NaN |} ]
      /\ ge_one NaN = false
      /\ forall m : Z, NaN <> div (Fin 10) (of_Z (Z.max 1 m)))
  /\ (exists r rate,
         outcome (readLast24h
                    (ProviderScenario.android_with
                       (ProviderScenario.hc_serving []
                          (ProviderScenario.store_steps
                             [ProviderScenario.hc_steps_instant])))
                    ProviderScenario.day)
         = Ok r
         /\ samples r
            = [ StepsSample (new_Date ProviderScenario.t0)
                  {| spm := Fin rate; interval_minutes := Fin 1 |} ]
         /\ (rate == 10)%Q
         /\ ge_one (Fin 1) = true).
Proof.
  split.
  - eexists. split; [reflexivity |]. split; [reflexivity |].
    split; [reflexivity |].
    intros m. rewrite div_by_minutes. discriminate.
  - do 2 eexists. split; [reflexivity |]. repeat split.
Qed.

(* --------------------------------------------------------------------- *)
(** ** Permission requests *)
(* --------------------------------------------------------------------- *)

Section Permissions.

Variable w : World.

Lemma requestPermissions_ios_run (hk : HK.Module_) :
  OS w = ios ->
  import_health w = Ok hk ->
  let perms := {| HK.read := ios_read_permissions; HK.write := [] |} in
  requestPermissions w
  = ([Import "react-native-health"; InitHealthKit perms],
     Ok match HK.initHealthKit hk perms with
        | None => {| granted := true; reason := None |}
        | Some e =>
            {| granted := false;
               reason := Some (message e ?? fallback_reason ios)%async |}
        end).
Proof.
  intros Hos Himp perms. unfold requestPermissions.
  rewrite Hos. cbn [PlatformOS_eqb]. rewrite Himp. cbn. fold perms.
  destruct (HK.initHealthKit hk perms); reflexivity.
Qed.

Lemma requestPermissions_android_run (hc : HC.Module_) :
  OS w = android ->
  import_health_connect w = Ok hc ->
  requestPermissions w
  = ([Import "react-native-health-connect";
      RequestPermission android_permissions],
     Ok match HC.requestPermission hc android_permissions with
        | Ok grants =>
            {| granted := (0 <? Z.of_nat (List.length grants));
               reason := None |}
        | Throw e =>
            {| granted := false;
               reason := Some (message e ?? fallback_reason android)%async |}
        end).
Proof.
  intros Hos Himp. unfold requestPermissions.
  rewrite Hos. cbn [PlatformOS_eqb]. rewrite Himp. cbn.
  destruct (HC.requestPermission hc android_permissions); reflexivity.
Qed.

Lemma requestPermissions_import_fails (e : Error) :
  (OS w = ios /\ import_health w = Throw e)
  \/ (OS w = android /\ import_health_connect w = Throw e) ->
  outcome (requestPermissions w)
  = Ok {| granted := false;
          reason := Some (message e ?? fallback_reason (OS w))%async |}.
Proof.
  intros [[Hos Himp] | [Hos Himp]];
    unfold requestPermissions; rewrite Hos; cbn [PlatformOS_eqb];
    rewrite Himp; reflexivity.
Qed.

Lemma requestPermissions_unsupported :
  OS w <> ios ->
  OS w <> android ->
  requestPermissions w
  = ([], Ok {| granted := false;
               reason := Some "Unsupported platform"%string |}).
Proof.
  intros Hios Handroid. unfold requestPermissions.
  destruct (OS w); try congruence; reflexivity.
Qed.

End Permissions.

Lemma ios_requests_every_category (cat : SampleType) :
  In cat (map hk_category ios_read_permissions).
Proof. destruct cat; cbn; tauto. Qed.

Lemma android_requests_all_but_ecg (cat : SampleType) :
  In cat (requested_categories (RequestPermission android_permissions))
  <-> cat <> ecg.
Proof.
  cbn. split.
  - intros H Hecg. subst cat.
    repeat (destruct H as [H | H]; [discriminate |]). exact H.
  - intros H. destruct cat; cbn; tauto || congruence.
Qed.

(** C8, as stated, fails on the Health Connect connector: the one request
    that is made does not ask for ECG, and a request that is granted
    nothing comes back as [{granted: false}] without a reason. *)
Lemma android_permission_gaps :
  requestPermissions ProviderScenario.android_denied
  = ([Import "react-native-health-connect";
      RequestPermission android_permissions],
     Ok {| granted := false; reason := None |})
  /\ ~ In ecg
         (flat_map requested_categories
            (trace (requestPermissions ProviderScenario.android_denied))).
Proof.
  split; [reflexivity |].
  cbn. intros H.
  repeat (destruct H as [H | H]; [discriminate |]). exact H.
Qed.

(** C8, amended.  [requestPermissions] never throws.  With the native
    module loaded it makes one request: on HealthKit for read access to
    all six categories, on Health Connect for read access to five (no
    ECG).  Whenever the module does not load or the platform answers the
    request with an error, and on an unsupported platform, the result is
    [{granted: false}] with a reason. *)
Theorem requestPermissions_contract (w : World) :
  (exists r, outcome (requestPermissions w) = Ok r)
  /\ (forall hk,
         OS w = ios -> import_health w = Ok hk ->
         trace (requestPermissions w)
         = [Import "react-native-health";
            InitHealthKit
              {| HK.read := ios_read_permissions; HK.write := [] |}]
         /\ forall cat,
             In cat
               (requested_categories
                  (InitHealthKit
                     {| HK.read := ios_read_permissions; HK.write := [] |})))
  /\ (forall hc,
         OS w = android -> import_health_connect w = Ok hc ->
         trace (requestPermissions w)
         = [Import "react-native-health-connect";
            RequestPermission android_permissions]
         /\ forall cat,
             In cat
               (requested_categories (RequestPermission android_permissions))
             <-> cat <> ecg)
  /\ (forall e,
         platform_refusal w = Some e ->
         outcome (requestPermissions w)
         = Ok {| granted := false;
                 reason := Some (message e ?? fallback_reason (OS w))%async |})
  /\ (OS w <> ios -> OS w <> android ->
      outcome (requestPermissions w)
      = Ok {| granted := false;
              reason := Some (fallback_reason (OS w)) |}).
Proof.
  split; [| split; [| split; [| split]]].
  - destruct (OS w) eqn:Hos.
    + destruct (import_health w) as [hk|e] eqn:Himp.
      * rewrite (requestPermissions_ios_run w hk Hos Himp). eexists; reflexivity.
      * unfold outcome.
        pose proof (requestPermissions_import_fails w e
                      (or_introl (conj Hos Himp))) as H.
        unfold outcome in H. rewrite H. eexists; reflexivity.
    + destruct (import_health_connect w) as [hc|e] eqn:Himp.
      * rewrite (requestPermissions_android_run w hc Hos Himp).
        eexists; reflexivity.
      * pose proof (requestPermissions_import_fails w e
                      (or_intror (conj Hos Himp))) as H.
        rewrite H. eexists; reflexivity.
    + rewrite requestPermissions_unsupported by congruence. eexists; reflexivity.
    + rewrite requestPermissions_unsupported by congruence. eexists; reflexivity.
    + rewrite requestPermissions_unsupported by congruence. eexists; reflexivity.
  - intros hk Hos Himp.
    rewrite (requestPermissions_ios_run w hk Hos Himp).
    split; [reflexivity | apply ios_requests_every_category].
  - intros hc Hos Himp.
    rewrite (requestPermissions_android_run w hc Hos Himp).
    split; [reflexivity | apply android_requests_all_but_ecg].
  - intros e Hrefusal. unfold platform_refusal in Hrefusal.
    destruct (OS w) eqn:Hos; try discriminate.
    + destruct (import_health w) as [hk|e'] eqn:Himp.
      * rewrite (requestPermissions_ios_run w hk Hos Himp).
        cbn zeta. rewrite Hrefusal. reflexivity.
      * inversion Hrefusal; subst e'.
        rewrite (requestPermissions_import_fails w e
                   (or_introl (conj Hos Himp))), Hos.
        reflexivity.
    + destruct (import_health_connect w) as [hc|e'] eqn:Himp.
      * rewrite (requestPermissions_android_run w hc Hos Himp).
        destruct (HC.requestPermission hc android_permissions);
          inversion Hrefusal; subst; reflexivity.
      * inversion Hrefusal; subst e'.
        rewrite (requestPermissions_import_fails w e
                   (or_intror (conj Hos Himp))), Hos.
        reflexivity.
  - intros Hios Handroid.
    rewrite requestPermissions_unsupported by assumption.
    destruct (OS w); try congruence; reflexivity.
Qed.

Lemma requestPermissions_contract_witness :
  outcome (requestPermissions
             (ProviderScenario.ios_with ProviderScenario.hk_refuses))
  = Ok {| granted := false; reason := Some "Authorization denied"%string |}
  /\ outcome (requestPermissions ProviderScenario.web_world)
     = Ok {| granted := false; reason := Some "Unsupported platform"%string |}.
Proof.
  split.
  - exact (proj1 (proj2 (proj2 (proj2
             (requestPermissions_contract
                (ProviderScenario.ios_with ProviderScenario.hk_refuses)))))
             _ eq_refl).
  - apply (proj2 (proj2 (proj2 (proj2
             (requestPermissions_contract ProviderScenario.web_world)))));
      discriminate.
Defined.

(* --------------------------------------------------------------------- *)
(** ** The Health Connect read path has no ECG *)
(* --------------------------------------------------------------------- *)

Lemma android_category_no_ecg {R} (body : R -> list HealthSample)
    (settled : Outcome (option (HC.Response R))) :
  (forall r, Forall not_ecg (body r)) ->
  Forall not_ecg (contributes (android_category body settled)).
Proof.
  intros Hbody. destruct settled as [res|e]; cbn; [| constructor].
  apply Forall_flat_map, Forall_forall. intros r _. apply Hbody.
Qed.

Ltac case_on_matches :=
  repeat match goal with
         | |- context [match ?x with _ => _ end] => destruct x
         end.

Lemma android_bodies_no_ecg :
  (forall g, Forall not_ecg (android_glucose_samples g))
  /\ (forall h, Forall not_ecg (android_heart_rate_samples h))
  /\ (forall b, Forall not_ecg (android_blood_pressure_samples b))
  /\ (forall s, Forall not_ecg [android_steps_sample s])
  /\ (forall ex, Forall not_ecg [android_exercise_sample ex]).
Proof.
  repeat split; intros r.
  - unfold android_glucose_samples.
    case_on_matches; repeat constructor; discriminate.
  - unfold android_heart_rate_samples.
    case_on_matches; repeat constructor; discriminate.
  - unfold android_blood_pressure_samples.
    case_on_matches; repeat constructor; discriminate.
  - repeat constructor; discriminate.
  - repeat constructor; discriminate.
Qed.

Lemma android_reads_no_ecg (hc : HC.Module_) (window : HealthReadWindow) :
  Forall not_ecg (List.concat (map contributes (android_reads hc window))).
Proof.
  destruct android_bodies_no_ecg as (Hg & Hh & Hb & Hs & Hex).
  apply Forall_concat. unfold android_reads. cbn [map].
  repeat constructor; apply android_category_no_ecg; assumption.
Qed.

(** C10.  On Android [readLast24h] never returns a sample of type
    [ecg], whatever the vendor answers; the only calls it makes are the
    module import and the reads of the five record types. *)
Theorem android_read_never_ecg (w : World) (window : HealthReadWindow) :
  OS w = android ->
  (forall r,
      outcome (readLast24h w window) = Ok r ->
      Forall (fun s => type_of s <> ecg) (samples r))
  /\ (forall c,
         In c (trace (readLast24h w window)) ->
         c = Import "react-native-health-connect"
         \/ exists t,
             In t [HC.BloodGlucose; HC.HeartRate; HC.BloodPressure; HC.Steps;
                   HC.ExerciseSession]
             /\ c = ReadRecords t (android_opts window)).
Proof.
  intros Hos.
  destruct (import_health_connect w) as [hc|e] eqn:Himp.
  - destruct (readLast24h_android_run w window hc Hos Himp) as [Htrace Hout].
    split.
    + intros r Hr. rewrite Hout in Hr.
      destruct (bounded window); [| discriminate].
      destruct (first_failure (android_reads hc window)); [discriminate |].
      inversion Hr; subst r. cbn [samples].
      apply android_reads_no_ecg.
    + intros c Hin. rewrite Htrace in Hin.
      destruct Hin as [<- | Hin]; [left; reflexivity | right].
      unfold android_query_calls in Hin.
      destruct (bounded window); [| destruct Hin].
      apply in_map_iff in Hin.
      destruct Hin as (t & <- & Ht). exists t. split; [exact Ht | reflexivity].
  - assert (Hrun : readLast24h w window
                   = ([Import "react-native-health-connect"], Throw e)).
    { unfold readLast24h. rewrite Hos. cbn [PlatformOS_eqb]. rewrite Himp.
      reflexivity. }
    rewrite Hrun. split.
    + intros r Hr. discriminate.
    + intros c [<- | []]. left; reflexivity.
Qed.

Lemma android_read_never_ecg_witness :
  (exists r,
      outcome (readLast24h
                 (ProviderScenario.android_with
                    (ProviderScenario.hc_serving [] ProviderScenario.store_mixed))
                 ProviderScenario.day)
      = Ok r
      /\ List.length (samples r) = 5%nat
      /\ Forall (fun s => type_of s <> ecg) (samples r)).
Proof.
  eexists. split; [reflexivity |]. split; [reflexivity |].
  exact (proj1 (android_read_never_ecg
                  (ProviderScenario.android_with
                     (ProviderScenario.hc_serving [] ProviderScenario.store_mixed))
                  ProviderScenario.day eq_refl)
           _ eq_refl).
Defined.

(* --------------------------------------------------------------------- *)
(** ** Serialisation of the samples read *)
(* --------------------------------------------------------------------- *)

(** C9, as stated, fails: a sample whose time stamp is an invalid date
    has no ISO-8601 string.  The read hands such a sample back for a
    heart-rate record that carries no [startDate], and for it
    [toIngestSamples] returns no wire sample at all: it throws. *)
Lemma undated_sample_not_serialised :
  outcome (readLast24h
             (ProviderScenario.ios_with ProviderScenario.hk_undated_reading)
             ProviderScenario.day)
  = Ok {| samples := [ProviderScenario.sample_undated];
          unavailable := None |}
  /\ Sync.toIngestSamples [ProviderScenario.sample_undated]
     = Throw RangeError
  /\ ~ (exists wire,
          Sync.toIngestSamples [ProviderScenario.sample_undated] = Ok wire
          /\ List.length wire = 1%nat).
Proof.
  split; [reflexivity |]. split; [reflexivity |].
  intros (wire & Hwire & _). discriminate.
Qed.

(** C9, amended.  For a list of samples whose time stamps are all valid
    dates, [toIngestSamples] yields one wire sample per canonical sample,
    in the same order; each keeps the sample's type tag and data object,
    takes the ISO-8601 string of its time stamp, and leaves [end_time]
    unset, for interval samples too.  If one of the time stamps is an
    invalid date, the call throws [RangeError] and yields nothing. *)
Theorem toIngestSamples_faithful (l : list HealthSample) :
  (forallb dated l = true ->
   exists wire,
     Sync.toIngestSamples l = Ok wire
     /\ List.length wire = List.length l
     /\ (forall (i : nat) (s : HealthSample),
            nth_error l i = Some s ->
            exists w,
              nth_error wire i = Some w
              /\ type w = type_of s
              /\ data w = data_of s
              /\ toISOString (Sync.timestamp_of s) = Ok (timestamp w)
              /\ end_time w = None)
     /\ Forall (fun w => end_time w = None) wire)
  /\ (forallb dated l = false ->
      Sync.toIngestSamples l = Throw RangeError).
Proof.
  split; [| apply toIngestSamples_undated].
  intros Hdated. exists (map wire_of l).
  split; [apply toIngestSamples_dated; exact Hdated |].
  split; [apply length_map |].
  split.
  - intros i s Hs. exists (wire_of s).
    split; [rewrite nth_error_map, Hs; reflexivity |].
    split; [reflexivity |]. split; [reflexivity |].
    split; [| reflexivity].
    assert (Hd : dated s = true).
    { rewrite forallb_forall in Hdated. apply Hdated.
      exact (nth_error_In l i Hs). }
    unfold dated in Hd. unfold wire_of, iso_text, toISOString. cbn [timestamp].
    destruct (time_value (Sync.timestamp_of s)); [reflexivity | discriminate].
  - apply Forall_map, Forall_forall. reflexivity.
Qed.

Lemma toIngestSamples_faithful_witness :
  (exists wire,
      Sync.toIngestSamples Scenario.five_samples = Ok wire
      /\ List.length wire = 5%nat
      /\ Forall (fun w => end_time w = None) wire)
  /\ Sync.toIngestSamples
       (Scenario.five_samples ++ [ProviderScenario.sample_undated])
     = Throw RangeError.
Proof.
  split.
  - destruct (proj1 (toIngestSamples_faithful Scenario.five_samples) eq_refl)
      as (wire & Hwire & Hlen & _ & Hend).
    exists wire. split; [exact Hwire |]. split; [exact Hlen | exact Hend].
  - exact (proj2 (toIngestSamples_faithful
                    (Scenario.five_samples ++ [ProviderScenario.sample_undated]))
             eq_refl).
Defined.

Example toIngestSamples_steps :
  Sync.toIngestSamples
    [StepsSample (new_Date 0) {| spm := Fin 12; interval_minutes := Fin 5 |}]
  = Ok [{| type := steps;
           timestamp := "1970-01-01T00:00:00.000Z";
           end_time := None;
           data := StepsObj {| spm := Fin 12; interval_minutes := Fin 5 |} |}].
Proof. reflexivity. Qed.

(* ===================================================================== *)
(** * Further properties of the sync pipeline and the connectors *)
(* ===================================================================== *)

Import ScreenView.

(** X1.  Outside [local_only], [uploadToBackend] serialises the samples
    and then makes exactly one request.  When every sample carries a
    valid date, that request is a POST to [/samples] carrying the user
    id, the storage mode and one wire sample per canonical sample, in
    order; the count the backend reports is passed on as it is
    ([uploaded] is not clamped to the batch size, [skipped] may be
    negative), and a failed request fails the call with the same error
    and is not retried.  When some sample carries an invalid date, the
    call throws [RangeError] before any request is made. *)
Theorem upload_single_request (api : Sync.ApiClient) (opts : Sync.UploadOpts) :
  Sync.storageMode opts <> local_only ->
  (forallb dated (Sync.opts_samples opts) = true ->
   exists payload,
     trace (Sync.uploadToBackend api opts) = [Sync.Post "/samples" payload]
     /\ Sync.user_id payload = Sync.userId opts
     /\ Sync.storage_mode payload = Sync.storageMode opts
     /\ Sync.payload_samples payload = map wire_of (Sync.opts_samples opts)
     /\ (forall res,
            Sync.post api "/samples" payload = Ok res ->
            outcome (Sync.uploadToBackend api opts)
            = Ok {| Sync.uploaded := Sync.inserted res;
                    Sync.skipped :=
                      Z.of_nat (List.length (Sync.opts_samples opts))
                      - Sync.inserted res |})
     /\ (forall e,
            Sync.post api "/samples" payload = Throw e ->
            outcome (Sync.uploadToBackend api opts) = Throw e))
  /\ (forallb dated (Sync.opts_samples opts) = false ->
      Sync.uploadToBackend api opts = ([], Throw RangeError)).
Proof.
  intros Hmode. rewrite (upload_remote_run api opts Hmode). split.
  - intros Hdated. rewrite (toIngestSamples_dated _ Hdated). cbv zeta.
    eexists. split; [reflexivity |].
    cbn [Sync.user_id Sync.storage_mode Sync.payload_samples].
    repeat split.
    + intros res Hres. unfold outcome. cbn [snd]. rewrite Hres. reflexivity.
    + intros e He. unfold outcome. cbn [snd]. rewrite He. reflexivity.
  - intros Hundated. rewrite (toIngestSamples_undated _ Hundated). reflexivity.
Qed.

Lemma upload_single_request_witness :
  (exists payload,
      trace (Sync.uploadToBackend ScreenScenario.backend_inserts_7
               Scenario.upload_raw)
      = [Sync.Post "/samples" payload]
      /\ List.length (Sync.payload_samples payload) = 5%nat
      /\ outcome (Sync.uploadToBackend ScreenScenario.backend_inserts_7
                    Scenario.upload_raw)
         = Ok {| Sync.uploaded := 7; Sync.skipped := -2 |})
  /\ Sync.uploadToBackend ScreenScenario.backend_inserts_7
       ScreenScenario.upload_undated
     = ([], Throw RangeError).
Proof.
  split.
  - destruct (proj1 (upload_single_request ScreenScenario.backend_inserts_7
                       Scenario.upload_raw ltac:(discriminate)) eq_refl)
      as (payload & Htrace & _ & _ & Hsamples & Hok & _).
    exists payload. split; [exact Htrace |]. split.
    + rewrite Hsamples. reflexivity.
    + exact (Hok {| Sync.inserted := 7 |} eq_refl).
  - exact (proj2 (upload_single_request ScreenScenario.backend_inserts_7
                    ScreenScenario.upload_undated ltac:(discriminate))
             eq_refl).
Defined.

(** X2.  Once the native module is loaded, [readLast24h] issues every
    category query exactly once and in a fixed order, whatever the
    queries answer: a failing query neither stops the later ones from
    being issued nor is it retried.  If the module does not load, the
    import is the only call made; so it is when a bound of the window is
    an invalid date, for which there are no queries to issue. *)
Theorem read_issues_every_query (w : World) (window : HealthReadWindow) :
  (forall hk,
      OS w = ios -> import_health w = Ok hk ->
      trace (readLast24h w window)
      = Import "react-native-health" :: ios_query_calls window)
  /\ (forall hc,
         OS w = android -> import_health_connect w = Ok hc ->
         trace (readLast24h w window)
         = Import "react-native-health-connect" :: android_query_calls window)
  /\ (forall e,
         (OS w = ios /\ import_health w = Throw e)
         \/ (OS w = android /\ import_health_connect w = Throw e) ->
         List.length (trace (readLast24h w window)) = 1%nat).
Proof.
  split; [| split].
  - intros hk Hos Himp. exact (proj1 (readLast24h_ios_run w window hk Hos Himp)).
  - intros hc Hos Himp.
    exact (proj1 (readLast24h_android_run w window hc Hos Himp)).
  - intros e [[Hos Himp] | [Hos Himp]];
      unfold readLast24h; rewrite Hos; cbn [PlatformOS_eqb]; rewrite Himp;
      reflexivity.
Qed.

Lemma read_issues_every_query_witness :
  trace (readLast24h
           (ProviderScenario.ios_with ProviderScenario.hk_heart_rate_fails)
           ProviderScenario.day)
  = Import "react-native-health" :: ios_query_calls ProviderScenario.day
  /\ List.length
       (trace (readLast24h
                 (Connector.world ScreenScenario.iphone_no_module)
                 ProviderScenario.day))
     = 1%nat.
Proof.
  split.
  - exact (proj1 (read_issues_every_query
                    (ProviderScenario.ios_with
                       ProviderScenario.hk_heart_rate_fails)
                    ProviderScenario.day)
             ProviderScenario.hk_heart_rate_fails eq_refl eq_refl).
  - exact (proj2 (proj2 (read_issues_every_query
                           (Connector.world ScreenScenario.iphone_no_module)
                           ProviderScenario.day))
             ProviderScenario.module_missing
             (or_introl (conj eq_refl eq_refl))).
Defined.

(** X3.  On iOS a successful read returns exactly one sample per vendor
    record: no record of any category is dropped. *)
Theorem ios_read_keeps_every_record
    (w : World) (window : HealthReadWindow) (hk : HK.Module_)
    (r : HealthReadResult) :
  OS w = ios ->
  import_health w = Ok hk ->
  outcome (readLast24h w window) = Ok r ->
  List.length (samples r) = ios_record_count hk window.
Proof.
  intros Hos Himp Hr.
  rewrite (proj2 (readLast24h_ios_run w window hk Hos Himp)) in Hr.
  destruct (bounded window); [| discriminate].
  destruct (first_failure (ios_reads hk window)); [discriminate |].
  inversion Hr; subst r. cbn [samples].
  unfold ios_reads, ios_category, ios_record_count. cbn.
  rewrite !length_app, !length_map. cbn. lia.
Qed.

Lemma ios_read_keeps_every_record_witness :
  exists r,
    outcome (readLast24h
               (ProviderScenario.ios_with ProviderScenario.hk_two_readings)
               ProviderScenario.day)
    = Ok r
    /\ List.length (samples r) = 2%nat.
Proof.
  eexists. split; [reflexivity |].
  exact (ios_read_keeps_every_record
           (ProviderScenario.ios_with ProviderScenario.hk_two_readings)
           ProviderScenario.day ProviderScenario.hk_two_readings _
           eq_refl eq_refl eq_refl).
Defined.

Lemma flat_map_at_most_one {A B} (f : A -> list B) (l : list A) :
  (forall a, (List.length (f a) <= 1)%nat) ->
  (List.length (flat_map f l) <= List.length l)%nat.
Proof.
  intros Hf. induction l as [|a l IH]; cbn; [lia |].
  rewrite length_app. specialize (Hf a). lia.
Qed.

Lemma android_bodies_at_most_one :
  (forall g, (List.length (android_glucose_samples g) <= 1)%nat)
  /\ (forall h, (List.length (android_heart_rate_samples h) <= 1)%nat)
  /\ (forall b, (List.length (android_blood_pressure_samples b) <= 1)%nat).
Proof.
  repeat split; intros x.
  - unfold android_glucose_samples. case_on_matches; cbn; lia.
  - unfold android_heart_rate_samples. case_on_matches; cbn; lia.
  - unfold android_blood_pressure_samples. case_on_matches; cbn; lia.
Qed.

(** X4.  On Android a successful read returns at most one sample per
    vendor record: records are dropped or kept, never multiplied. *)
Theorem android_read_at_most_one_per_record
    (w : World) (window : HealthReadWindow) (hc : HC.Module_)
    (r : HealthReadResult) :
  OS w = android ->
  import_health_connect w = Ok hc ->
  outcome (readLast24h w window) = Ok r ->
  (List.length (samples r) <= android_record_count hc window)%nat.
Proof.
  intros Hos Himp Hr.
  rewrite (proj2 (readLast24h_android_run w window hc Hos Himp)) in Hr.
  destruct (bounded window); [| discriminate].
  unfold android_reads, android_record_count, android_category in *.
  destruct android_bodies_at_most_one as (Hg & Hh & Hb).
  destruct (HC.readRecords hc HC.BloodGlucose (android_opts window)) as [r1|e1];
    [| discriminate].
  destruct (HC.readRecords hc HC.HeartRate (android_opts window)) as [r2|e2];
    [| discriminate].
  destruct (HC.readRecords hc HC.BloodPressure (android_opts window)) as [r3|e3];
    [| discriminate].
  destruct (HC.readRecords hc HC.Steps (android_opts window)) as [r4|e4];
    [| discriminate].
  destruct (HC.readRecords hc HC.ExerciseSession (android_opts window))
    as [r5|e5]; [| discriminate].
  cbn in Hr. inversion Hr; subst r. cbn [samples records_read].
  rewrite !length_app, !flat_map_singleton, !length_map. cbn [List.length].
  pose proof (@flat_map_at_most_one (HC.RecordOf HC.BloodGlucose) _
                android_glucose_samples (records_or_empty r1) Hg).
  pose proof (@flat_map_at_most_one (HC.RecordOf HC.HeartRate) _
                android_heart_rate_samples (records_or_empty r2) Hh).
  pose proof (@flat_map_at_most_one (HC.RecordOf HC.BloodPressure) _
                android_blood_pressure_samples (records_or_empty r3) Hb).
  cbn [HC.RecordOf] in *. lia.
Qed.

Lemma android_read_at_most_one_per_record_witness :
  exists r,
    outcome (readLast24h (Connector.world ScreenScenario.android_phone)
               ProviderScenario.day)
    = Ok r
    /\ (List.length (samples r) <= 6)%nat.
Proof.
  eexists. split; [reflexivity |].
  exact (android_read_at_most_one_per_record
           (Connector.world ScreenScenario.android_phone)
           ProviderScenario.day _ _ eq_refl eq_refl eq_refl).
Defined.

(* --------------------------------------------------------------------- *)
(** ** Order of the samples *)
(* --------------------------------------------------------------------- *)

Lemma laid_out_nil (k : nat) : laid_out_from k [].
Proof. split; constructor. Qed.

Lemma laid_out_block (k k' : nat) (block rest : list HealthSample) :
  Forall (fun s => category_rank (type_of s) = k) block ->
  (k <= k')%nat ->
  laid_out_from k' rest ->
  laid_out_from k (block ++ rest).
Proof.
  intros Hblock Hk [Hsorted Hfrom].
  induction block as [|s block IH]; cbn.
  - split; [exact Hsorted |].
    eapply Forall_impl; [| exact Hfrom]. cbn; intros; lia.
  - inversion Hblock as [|? ? Hs Hblock']; subst.
    destruct (IH Hblock') as [IHs IHf].
    split.
    + constructor; [exact IHs |].
      apply Forall_map. eapply Forall_impl; [| exact IHf].
      cbn; intros; lia.
    + constructor; [lia | exact IHf].
Qed.

Lemma map_block {A} (body : A -> HealthSample) (k : nat) (l : list A) :
  (forall a, category_rank (type_of (body a)) = k) ->
  Forall (fun s => category_rank (type_of s) = k) (map body l).
Proof. intros H. apply Forall_map, Forall_forall. intros a _. apply H. Qed.

Lemma flat_map_block {A} (body : A -> list HealthSample) (k : nat)
    (l : list A) :
  (forall a, Forall (fun s => category_rank (type_of s) = k) (body a)) ->
  Forall (fun s => category_rank (type_of s) = k) (flat_map body l).
Proof.
  intros H. apply Forall_flat_map, Forall_forall. intros a _. apply H.
Qed.

Lemma android_category_block {R} (body : R -> list HealthSample) (k : nat)
    (settled : Outcome (option (HC.Response R))) :
  (forall a, Forall (fun s => category_rank (type_of s) = k) (body a)) ->
  Forall (fun s => category_rank (type_of s) = k)
    (contributes (android_category body settled)).
Proof.
  intros H. destruct settled; cbn; [| constructor].
  apply flat_map_block, H.
Qed.

Lemma android_bodies_rank :
  (forall g, Forall (fun s => category_rank (type_of s) = 0%nat)
               (android_glucose_samples g))
  /\ (forall h, Forall (fun s => category_rank (type_of s) = 1%nat)
                  (android_heart_rate_samples h))
  /\ (forall b, Forall (fun s => category_rank (type_of s) = 2%nat)
                  (android_blood_pressure_samples b)).
Proof.
  repeat split; intros x.
  - unfold android_glucose_samples. case_on_matches; repeat constructor.
  - unfold android_heart_rate_samples. case_on_matches; repeat constructor.
  - unfold android_blood_pressure_samples. case_on_matches; repeat constructor.
Qed.

(** X5.  The samples a read returns are laid out category by category,
    in the order glucose, heart rate, blood pressure, steps, exercise,
    ECG: a sample of a later category never precedes one of an earlier
    category. *)
Theorem read_samples_grouped_by_category
    (w : World) (window : HealthReadWindow) (r : HealthReadResult) :
  outcome (readLast24h w window) = Ok r ->
  StronglySorted le (map (fun s => category_rank (type_of s)) (samples r)).
Proof.
  intros Hr.
  destruct (OS w) eqn:Hos;
    try (rewrite readLast24h_unsupported in Hr by congruence;
         inversion Hr; subst r; constructor).
  - destruct (import_health w) as [hk|e] eqn:Himp.
    + rewrite (proj2 (readLast24h_ios_run w window hk Hos Himp)) in Hr.
      destruct (bounded window); [| discriminate].
      destruct (first_failure (ios_reads hk window)); [discriminate |].
      inversion Hr; subst r. cbn [samples].
      unfold ios_reads, ios_category. cbn [map List.concat contributes].
      match goal with
      | |- StronglySorted le (map _ ?l) =>
          enough (Hl : laid_out_from 0 l) by exact (proj1 Hl)
      end.
      eapply (laid_out_block 0 1); [apply map_block; reflexivity | lia |].
      eapply (laid_out_block 1 2); [apply map_block; reflexivity | lia |].
      eapply (laid_out_block 2 3); [apply map_block; reflexivity | lia |].
      eapply (laid_out_block 3 4); [apply map_block; reflexivity | lia |].
      eapply (laid_out_block 4 5); [apply map_block; reflexivity | lia |].
      eapply (laid_out_block 5 5); [apply map_block; reflexivity | lia |].
      apply laid_out_nil.
    + rewrite (readLast24h_import_fails w window e
                 (or_introl (conj Hos Himp))) in Hr.
      discriminate.
  - destruct (import_health_connect w) as [hc|e] eqn:Himp.
    + rewrite (proj2 (readLast24h_android_run w window hc Hos Himp)) in Hr.
      destruct (bounded window); [| discriminate].
      destruct (first_failure (android_reads hc window)); [discriminate |].
      inversion Hr; subst r. cbn [samples].
      destruct android_bodies_rank as (Hg & Hh & Hb).
      unfold android_reads. cbn [map List.concat].
      match goal with
      | |- StronglySorted le (map _ ?l) =>
          enough (Hl : laid_out_from 0 l) by exact (proj1 Hl)
      end.
      eapply (laid_out_block 0 1);
        [apply android_category_block; exact Hg | lia |].
      eapply (laid_out_block 1 2);
        [apply android_category_block; exact Hh | lia |].
      eapply (laid_out_block 2 3);
        [apply android_category_block; exact Hb | lia |].
      eapply (laid_out_block 3 4);
        [apply android_category_block; intros; repeat constructor | lia |].
      eapply (laid_out_block 4 5);
        [apply android_category_block; intros; repeat constructor | lia |].
      apply laid_out_nil.
    + rewrite (readLast24h_import_fails w window e
                 (or_intror (conj Hos Himp))) in Hr.
      discriminate.
Qed.

Lemma read_samples_grouped_by_category_witness :
  exists r,
    outcome (readLast24h (Connector.world ScreenScenario.android_phone)
               ProviderScenario.day)
    = Ok r
    /\ map type_of (samples r)
       = [blood_glucose; blood_glucose; blood_pressure; steps; steps]
    /\ StronglySorted le
         (map (fun s => category_rank (type_of s)) (samples r)).
Proof.
  eexists. split; [reflexivity |]. split; [reflexivity |].
  exact (read_samples_grouped_by_category
           (Connector.world ScreenScenario.android_phone)
           ProviderScenario.day _ eq_refl).
Defined.

(* --------------------------------------------------------------------- *)
(** ** More on the Health Connect loop bodies *)
(* --------------------------------------------------------------------- *)

(** A Health Connect heart-rate record yields at most one sample.
    Its [bpm] is the record's own [beatsPerMinute] when present, and
    otherwise that of the first nested sample only: later nested samples
    are never consulted, and a record offering neither is dropped. *)
Theorem android_heart_rate_first_reading (h : HC.HeartRateRecord) :
  map (fun s => option_map bpm (heart_rate_data s))
    (android_heart_rate_samples h)
  = match android_heart_reading h with
    | Some v => [Some v]
    | None => []
    end.
Proof.
  unfold android_heart_rate_samples, android_heart_reading.
  destruct (HC.h_beatsPerMinute h) as [v|]; [reflexivity |].
  destruct (HC.h_samples h) as [[|s0 rest]|]; try reflexivity.
  cbn [hd_error]. destruct (HC.s_beatsPerMinute s0); reflexivity.
Qed.


Lemma Math_max_zero (k : Z) : Math_max (of_Z 0) (of_Z k) = of_Z (Z.max 0 k).
Proof.
  unfold Math_max, of_Z.
  replace (Qle_bool (inject_Z 0) (inject_Z k)) with (0 <=? k).
  - destruct (Z.leb_spec 0 k).
    + rewrite Z.max_r by lia. reflexivity.
    + rewrite Z.max_l by lia. reflexivity.
  - unfold Qle_bool, inject_Z. cbn. f_equal. lia.
Qed.

(** X6.  A Health Connect exercise session whose two times are usable
    is emitted with the rounded length of its interval in minutes,
    floored at zero: a session whose end does not come after its start
    yields [0], never a negative number of minutes.  A session one of
    whose times is missing or unreadable is emitted as well, with [NaN]
    minutes: the floor does not catch it. *)
Theorem android_exercise_minutes_floor (ex : HC.ExerciseRecord) :
  (forall start end_ : Timestamp,
      instant (HC.ex_startTime ex) = Some start ->
      instant (HC.ex_endTime ex) = Some end_ ->
      option_map minutes (exercise_data (android_exercise_sample ex))
      = Some (of_Z (Z.max 0 (whole_minutes start end_)))
      /\ (end_ <= start ->
          option_map minutes (exercise_data (android_exercise_sample ex))
          = Some (of_Z 0)))
  /\ (instant (HC.ex_startTime ex) = None
      \/ instant (HC.ex_endTime ex) = None ->
      option_map minutes (exercise_data (android_exercise_sample ex))
      = Some NaN).
Proof.
  split.
  - intros start end_ Ha Hb.
    assert (Hmain :
              option_map minutes (exercise_data (android_exercise_sample ex))
              = Some (of_Z (Z.max 0 (whole_minutes start end_)))).
    { unfold android_exercise_sample.
      cbn [exercise_data option_map minutes].
      rewrite (Math_round_minutes _ _ start end_ Ha Hb), Math_max_zero.
      reflexivity. }
    split; [exact Hmain |].
    intros Hle. rewrite Hmain. do 2 f_equal.
    unfold whole_minutes.
    assert ((end_ - start + 30000) / 60000 <= 0).
    { apply Z.lt_succ_r. apply Z.div_lt_upper_bound; lia. }
    lia.
  - intros H. unfold android_exercise_sample.
    cbn [exercise_data option_map minutes].
    rewrite (Math_round_no_minutes _ _ H). reflexivity.
Qed.

Lemma android_exercise_minutes_floor_witness :
  option_map minutes
    (exercise_data (android_exercise_sample ProviderScenario.hc_exercise_backwards))
  = Some (of_Z 0)
  /\ option_map minutes
       (exercise_data (android_exercise_sample ProviderScenario.hc_exercise_open))
     = Some NaN.
Proof.
  split.
  - apply (proj2 (proj1 (android_exercise_minutes_floor
                           ProviderScenario.hc_exercise_backwards)
                    (ProviderScenario.t0 + 600000) ProviderScenario.t0
                    eq_refl eq_refl)).
    unfold ProviderScenario.t0, Scenario.t0. lia.
  - exact (proj2 (android_exercise_minutes_floor
                    ProviderScenario.hc_exercise_open)
             (or_intror eq_refl)).
Defined.

(* --------------------------------------------------------------------- *)
(** ** Permissions and availability *)
(* --------------------------------------------------------------------- *)

(** X8.  On Android [requestPermissions] reports [granted] exactly when
    the platform grants at least one permission: a partial grant counts
    as granted, and which permissions were granted is not looked at. *)
Theorem android_granted_iff_any_grant
    (w : World) (hc : HC.Module_) (grants : list HC.Permission) :
  OS w = android ->
  import_health_connect w = Ok hc ->
  HC.requestPermission hc android_permissions = Ok grants ->
  exists r,
    outcome (requestPermissions w) = Ok r
    /\ reason r = None
    /\ (granted r = true <-> grants <> []).
Proof.
  intros Hos Himp Hgrants.
  rewrite (requestPermissions_android_run w hc Hos Himp), Hgrants.
  eexists. split; [reflexivity |]. split; [reflexivity |].
  cbn [granted]. destruct grants as [|g grants]; cbn [List.length].
  - split; [discriminate | congruence].
  - split; [discriminate |]. intros _. apply Z.ltb_lt. lia.
Qed.

Lemma android_granted_iff_any_grant_witness :
  exists r,
    outcome (requestPermissions (Connector.world ScreenScenario.android_phone))
    = Ok r
    /\ reason r = None
    /\ (granted r = true
        <-> [{| HC.accessType := "read"; HC.recordType := HC.Steps |}] <> []).
Proof.
  exact (android_granted_iff_any_grant
           (Connector.world ScreenScenario.android_phone) _ _
           eq_refl eq_refl eq_refl).
Defined.

Section Probe.

Variable d : Connector.Device.

Lemma getConnectorStatus_ios_run :
  OS (Connector.world d) = ios ->
  outcome (Connector.getConnectorStatus d)
  = Ok match import_health (Connector.world d), Connector.isAvailable d with
       | Ok _, Ok cb =>
           if truthy_flag (HK.res cb) then Connector.Available
           else Connector.Unavailable "HealthKit not available"
       | Throw e, _ | Ok _, Throw e =>
           Connector.Unavailable
             (message e ?? "HealthKit module not available"%string)%async
       end.
Proof.
  intros Hos. unfold Connector.getConnectorStatus.
  rewrite Hos. cbn [PlatformOS_eqb].
  destruct (import_health (Connector.world d)); [| reflexivity].
  destruct (Connector.isAvailable d) as [cb|e]; [| reflexivity].
  cbn. destruct (truthy_flag (HK.res cb)); reflexivity.
Qed.

Lemma getConnectorStatus_android_run :
  OS (Connector.world d) = android ->
  outcome (Connector.getConnectorStatus d)
  = Ok match import_health_connect (Connector.world d),
             Connector.initialize d with
       | Ok _, Ok ok =>
           if ok then Connector.Available
           else Connector.Unavailable "Health Connect init failed"
       | Throw e, _ | Ok _, Throw e =>
           Connector.Unavailable
             (message e ?? "Health Connect module not available"%string)%async
       end.
Proof.
  intros Hos. unfold Connector.getConnectorStatus.
  rewrite Hos. cbn [PlatformOS_eqb].
  destruct (import_health_connect (Connector.world d)); [| reflexivity].
  destruct (Connector.initialize d) as [[|]|e]; reflexivity.
Qed.

Lemma getConnectorStatus_unsupported :
  OS (Connector.world d) <> ios ->
  OS (Connector.world d) <> android ->
  Connector.getConnectorStatus d
  = ([], Ok (Connector.Unavailable "Connectors not available on web")).
Proof.
  intros Hios Handroid. unfold Connector.getConnectorStatus.
  destruct (OS (Connector.world d)); try congruence; reflexivity.
Qed.

Lemma getConnectorStatus_settles :
  exists s, outcome (Connector.getConnectorStatus d) = Ok s.
Proof.
  destruct (OS (Connector.world d)) eqn:Hos.
  - rewrite (getConnectorStatus_ios_run Hos). eexists; reflexivity.
  - rewrite (getConnectorStatus_android_run Hos). eexists; reflexivity.
  - rewrite getConnectorStatus_unsupported by congruence. eexists; reflexivity.
  - rewrite getConnectorStatus_unsupported by congruence. eexists; reflexivity.
  - rewrite getConnectorStatus_unsupported by congruence. eexists; reflexivity.
Qed.

End Probe.

(** X9.  [getConnectorStatus] reports [available] exactly when the
    platform is iOS, the HealthKit module loads and [isAvailable] calls
    back with a true result, or the platform is Android, the Health
    Connect module loads and [initialize()] resolves to true.  An error
    handed to the [isAvailable] callback plays no part. *)
Theorem connector_available_iff (d : Connector.Device) :
  outcome (Connector.getConnectorStatus d) = Ok Connector.Available
  <-> (OS (Connector.world d) = ios
       /\ exists hk cb,
           import_health (Connector.world d) = Ok hk
           /\ Connector.isAvailable d = Ok cb
           /\ truthy_flag (HK.res cb) = true)
      \/ (OS (Connector.world d) = android
          /\ exists hc,
              import_health_connect (Connector.world d) = Ok hc
              /\ Connector.initialize d = Ok true).
Proof.
  destruct (OS (Connector.world d)) eqn:Hos.
  - rewrite (getConnectorStatus_ios_run d Hos). split.
    + intros H. left. split; [reflexivity |].
      destruct (import_health (Connector.world d)) as [hk|e];
        [| discriminate].
      destruct (Connector.isAvailable d) as [cb|e]; [| discriminate].
      exists hk, cb. repeat split.
      destruct (truthy_flag (HK.res cb)); [reflexivity | discriminate].
    + intros [[_ (hk & cb & Himp & Hcb & Htrue)] | [Habs _]];
        [| discriminate].
      rewrite Himp, Hcb, Htrue. reflexivity.
  - rewrite (getConnectorStatus_android_run d Hos). split.
    + intros H. right. split; [reflexivity |].
      destruct (import_health_connect (Connector.world d)) as [hc|e];
        [| discriminate].
      destruct (Connector.initialize d) as [[|]|e]; try discriminate.
      exists hc. split; reflexivity.
    + intros [[Habs _] | [_ (hc & Himp & Hinit)]]; [discriminate |].
      rewrite Himp, Hinit. reflexivity.
  - rewrite getConnectorStatus_unsupported by congruence.
    split; [discriminate | intros [[H _] | [H _]]; discriminate].
  - rewrite getConnectorStatus_unsupported by congruence.
    split; [discriminate | intros [[H _] | [H _]]; discriminate].
  - rewrite getConnectorStatus_unsupported by congruence.
    split; [discriminate | intros [[H _] | [H _]]; discriminate].
Qed.

Lemma connector_available_iff_witness :
  outcome (Connector.getConnectorStatus ScreenScenario.iphone)
  = Ok Connector.Available
  /\ outcome (Connector.getConnectorStatus ScreenScenario.android_phone)
     = Ok Connector.Available.
Proof.
  split.
  - apply (proj2 (connector_available_iff ScreenScenario.iphone)).
    left. split; [reflexivity |]. do 2 eexists. repeat split.
  - apply (proj2 (connector_available_iff ScreenScenario.android_phone)).
    right. split; [reflexivity |]. eexists. split; reflexivity.
Defined.

(** X10.  [getConnectorStatus] never throws, and on any platform other
    than iOS and Android (web, but also Windows and macOS) it answers
    "Connectors not available on web" without touching a native module. *)
Theorem connector_status_total (d : Connector.Device) :
  (exists s, outcome (Connector.getConnectorStatus d) = Ok s)
  /\ (OS (Connector.world d) <> ios ->
      OS (Connector.world d) <> android ->
      Connector.getConnectorStatus d
      = ([], Ok (Connector.Unavailable "Connectors not available on web"))).
Proof.
  split.
  - apply getConnectorStatus_settles.
  - apply getConnectorStatus_unsupported.
Qed.

Lemma connector_status_total_witness :
  Connector.getConnectorStatus
    {| Connector.world :=
         {| OS := macos;
            import_health := Throw ProviderScenario.module_missing;
            import_health_connect := Throw ProviderScenario.module_missing |};
       Connector.isAvailable := Throw ProviderScenario.module_missing;
       Connector.initialize := Throw ProviderScenario.module_missing |}
  = ([], Ok (Connector.Unavailable "Connectors not available on web")).
Proof.
  apply (proj2 (connector_status_total _)); discriminate.
Defined.

(** X11.  When the native module of the platform does not load, the
    probe and the permission request turn the error into a value
    ([unavailable], respectively [granted: false], with the error's
    message or a fallback text as reason), while [readLast24h] lets the
    same error escape to its caller. *)
Theorem missing_module_handling
    (d : Connector.Device) (window : HealthReadWindow) (e : Error) :
  (OS (Connector.world d) = ios /\ import_health (Connector.world d) = Throw e)
  \/ (OS (Connector.world d) = android
      /\ import_health_connect (Connector.world d) = Throw e) ->
  outcome (Connector.getConnectorStatus d)
  = Ok (Connector.Unavailable
          (message e ?? probe_fallback (OS (Connector.world d)))%async)
  /\ outcome (requestPermissions (Connector.world d))
     = Ok {| granted := false;
             reason :=
               Some (message e ?? fallback_reason (OS (Connector.world d)))%async |}
  /\ outcome (readLast24h (Connector.world d) window) = Throw e.
Proof.
  intros H. split; [| split].
  - destruct H as [[Hos Himp] | [Hos Himp]].
    + rewrite (getConnectorStatus_ios_run d Hos), Himp, Hos. reflexivity.
    + rewrite (getConnectorStatus_android_run d Hos), Himp, Hos. reflexivity.
  - apply requestPermissions_import_fails, H.
  - apply readLast24h_import_fails, H.
Qed.

Lemma missing_module_handling_witness :
  outcome (Connector.getConnectorStatus ScreenScenario.iphone_no_module)
  = Ok (Connector.Unavailable "Cannot find module")
  /\ outcome (requestPermissions
                (Connector.world ScreenScenario.iphone_no_module))
     = Ok {| granted := false; reason := Some "Cannot find module"%string |}
  /\ outcome (readLast24h (Connector.world ScreenScenario.iphone_no_module)
                ProviderScenario.day)
     = Throw ProviderScenario.module_missing.
Proof.
  exact (missing_module_handling ScreenScenario.iphone_no_module
           ProviderScenario.day ProviderScenario.module_missing
           (or_introl (conj eq_refl eq_refl))).
Defined.
(* ===================================================================== *)
(** * Properties of the settings screen *)
(* ===================================================================== *)

Section SettingsHandlers.

Variable app : SettingsScreen.App.

Let w : World := Connector.world (SettingsScreen.device app).

(** A sync, step by step: the busy flag is raised, the last 24 hours are
    read, the outcome is acted upon, the busy flag is lowered. *)
Lemma onSyncLast24h_run :
  SettingsScreen.onSyncLast24h app
  = (SettingsScreen.SetBusy true
       :: map SettingsScreen.Provider (trace (readLast24h w (last24h app)))
       ++ sync_after app (outcome (readLast24h w (last24h app)))
       ++ [SettingsScreen.SetBusy false],
     Ok tt).
Proof.
  unfold SettingsScreen.onSyncLast24h, sync_after, upload_of.
  fold (last24h app). fold w.
  destruct (readLast24h w (last24h app)) as [t [read|e]].
  - unfold SettingsScreen.lift, SettingsScreen.try_finally,
      SettingsScreen.ui, try_catch, bind, call, trace, outcome.
    cbn [fst snd].
    destruct (truthy_string (unavailable read));
      [cbn; rewrite <- !app_assoc; reflexivity |].
    destruct (List.length (samples read) =? 0)%nat;
      [cbn; rewrite <- !app_assoc; reflexivity |].
    destruct (Sync.uploadToBackend _ _) as [t' [up|e]];
      cbn; rewrite <- !app_assoc; reflexivity.
  - unfold SettingsScreen.lift, SettingsScreen.try_finally,
      SettingsScreen.ui, try_catch, bind, call, trace, outcome.
    cbn. rewrite <- !app_assoc. reflexivity.
Qed.

End SettingsHandlers.

Lemma alerts_app (a b : list SettingsScreen.Call) :
  alerts (a ++ b) = alerts a ++ alerts b.
Proof. apply flat_map_app. Qed.

Lemma requests_app (a b : list SettingsScreen.Call) :
  requests (a ++ b) = requests a ++ requests b.
Proof. apply flat_map_app. Qed.

Lemma alerts_provider (t : list HealthProvider.Call) :
  alerts (map SettingsScreen.Provider t) = [].
Proof. induction t; [reflexivity | exact IHt]. Qed.

Lemma alerts_api (t : list Sync.Call) :
  alerts (map SettingsScreen.Api t) = [].
Proof. induction t; [reflexivity | exact IHt]. Qed.

Lemma alerts_status (t : list Connector.Call) :
  alerts (map SettingsScreen.Status t) = [].
Proof. induction t; [reflexivity | exact IHt]. Qed.

Lemma requests_provider (t : list HealthProvider.Call) :
  requests (map SettingsScreen.Provider t) = [].
Proof. induction t; [reflexivity | exact IHt]. Qed.

Lemma requests_api (t : list Sync.Call) :
  requests (map SettingsScreen.Api t) = t.
Proof. induction t; [reflexivity | cbn; f_equal; exact IHt]. Qed.

Lemma not_busy_provider (t : list HealthProvider.Call) (b : bool) :
  ~ In (SettingsScreen.SetBusy b) (map SettingsScreen.Provider t).
Proof. intros H. apply in_map_iff in H. destruct H as (c & Hc & _). discriminate. Qed.

Lemma not_busy_api (t : list Sync.Call) (b : bool) :
  ~ In (SettingsScreen.SetBusy b) (map SettingsScreen.Api t).
Proof. intros H. apply in_map_iff in H. destruct H as (c & Hc & _). discriminate. Qed.

Section SyncHandler.

Variable app : SettingsScreen.App.

Let w : World := Connector.world (SettingsScreen.device app).

(** The alerts of a sync: those of the step after the read. *)
Lemma onSyncLast24h_alerts :
  alerts (trace (SettingsScreen.onSyncLast24h app))
  = alerts (sync_after app (outcome (readLast24h w (last24h app)))).
Proof.
  rewrite onSyncLast24h_run. fold w. unfold trace. cbn [fst].
  change (SettingsScreen.SetBusy true :: ?l)
    with ([SettingsScreen.SetBusy true] ++ l).
  rewrite !alerts_app, alerts_provider. cbn. apply app_nil_r.
Qed.

Lemma onSyncLast24h_requests :
  requests (trace (SettingsScreen.onSyncLast24h app))
  = requests (sync_after app (outcome (readLast24h w (last24h app)))).
Proof.
  rewrite onSyncLast24h_run. fold w. unfold trace. cbn [fst].
  change (SettingsScreen.SetBusy true :: ?l)
    with ([SettingsScreen.SetBusy true] ++ l).
  rewrite !requests_app, requests_provider. cbn. apply app_nil_r.
Qed.

Lemma sync_after_one_alert (settled : Outcome HealthReadResult) :
  List.length (alerts (sync_after app settled)) = 1%nat.
Proof.
  unfold sync_after. destruct settled as [read|e]; [| reflexivity].
  destruct (truthy_string (unavailable read)); [reflexivity |].
  destruct (List.length (samples read) =? 0)%nat; [reflexivity |].
  rewrite alerts_app, alerts_api.
  destruct (outcome (upload_of app read)); reflexivity.
Qed.

Lemma sync_after_not_busy (settled : Outcome HealthReadResult) (b : bool) :
  ~ In (SettingsScreen.SetBusy b) (sync_after app settled).
Proof.
  unfold sync_after. destruct settled as [read|e];
    [| intros [H | []]; discriminate].
  destruct (truthy_string (unavailable read));
    [intros [H | []]; discriminate |].
  destruct (List.length (samples read) =? 0)%nat;
    [intros [H | []]; discriminate |].
  intros H. apply in_app_or in H. destruct H as [H | [H | []]].
  - exact (not_busy_api _ _ H).
  - destruct (outcome (upload_of app read)); discriminate.
Qed.

Lemma sync_after_requests (settled : Outcome HealthReadResult) :
  requests (sync_after app settled)
  = match settled with
    | Ok read =>
        if truthy_string (unavailable read) then []
        else if (List.length (samples read) =? 0)%nat then []
        else trace (upload_of app read)
    | Throw _ => []
    end.
Proof.
  unfold sync_after. destruct settled as [read|e]; [| reflexivity].
  destruct (truthy_string (unavailable read)); [reflexivity |].
  destruct (List.length (samples read) =? 0)%nat; [reflexivity |].
  rewrite requests_app, requests_api.
  destruct (outcome (upload_of app read)); cbn; apply app_nil_r.
Qed.

End SyncHandler.

(** X12.  A sync never throws to the screen, whatever the platform and
    the backend do.  It raises the busy flag first and lowers it last,
    touches it at no other point, and shows exactly one alert. *)
Theorem sync_brackets_busy_and_alerts_once (app : SettingsScreen.App) :
  outcome (SettingsScreen.onSyncLast24h app) = Ok tt
  /\ exists mid,
      trace (SettingsScreen.onSyncLast24h app)
      = SettingsScreen.SetBusy true :: mid ++ [SettingsScreen.SetBusy false]
      /\ (forall b, ~ In (SettingsScreen.SetBusy b) mid)
      /\ List.length (alerts mid) = 1%nat.
Proof.
  rewrite onSyncLast24h_run. split; [reflexivity |].
  eexists. split.
  - unfold trace. cbn [fst]. rewrite app_assoc. reflexivity.
  - split.
    + intros b H. apply in_app_or in H. destruct H as [H | H].
      * exact (not_busy_provider _ _ H).
      * exact (sync_after_not_busy app _ _ H).
    + rewrite alerts_app, alerts_provider. apply sync_after_one_alert.
Qed.

(** X13.  A sync sends to the backend only what it has just read: every
    request it makes is the single POST to [/samples] that carries the
    stored user id and storage mode and the wire form of the samples
    read, and none is made when the read fails, reports the platform
    unavailable or returns no sample, or when the mode is [local_only]. *)
Theorem sync_uploads_what_was_read (app : SettingsScreen.App) :
  (List.length (requests (trace (SettingsScreen.onSyncLast24h app))) <= 1)%nat
  /\ forall c,
      In c (requests (trace (SettingsScreen.onSyncLast24h app))) ->
      exists read,
        outcome (readLast24h (Connector.world (SettingsScreen.device app))
                   (last24h app))
        = Ok read
        /\ truthy_string (unavailable read) = false
        /\ samples read <> []
        /\ SettingsScreen.storageMode app <> local_only
        /\ c = Sync.Post "/samples"
                 {| Sync.user_id := SettingsScreen.userId app;
                    Sync.storage_mode := SettingsScreen.storageMode app;
                    Sync.payload_samples := map wire_of (samples read) |}.
Proof.
  rewrite onSyncLast24h_requests, sync_after_requests.
  destruct (outcome (readLast24h _ _)) as [read|e];
    [| split; [cbn; lia | intros c []]].
  destruct (truthy_string (unavailable read)) eqn:Hun;
    [split; [cbn; lia | intros c []] |].
  destruct (List.length (samples read) =? 0)%nat eqn:Hlen;
    [split; [cbn; lia | intros c []] |].
  assert (Hsamples : samples read <> []).
  { intros Hnil. rewrite Hnil in Hlen. discriminate. }
  unfold upload_of.
  destruct (SettingsScreen.storageMode app) eqn:Hmode.
  1, 2:
    match goal with
    | |- context [Sync.uploadToBackend ?a ?o] =>
        rewrite (upload_remote_run a o) by (cbn; congruence)
    end;
    cbn [Sync.userId Sync.storageMode Sync.opts_samples];
    destruct (Sync.toIngestSamples (samples read)) as [wire|e] eqn:Hwire;
    [| split; [cbn; lia | intros c []]];
    apply toIngestSamples_map in Hwire; destruct Hwire as [_ ->];
    (split; [cbn; lia |]);
    intros c [<- | []]; exists read;
    repeat split; try assumption; discriminate.
  match goal with
  | |- context [Sync.uploadToBackend ?a ?o] =>
      rewrite (upload_local_only_run a o eq_refl)
  end.
  split; [cbn; lia | intros c []].
Qed.

Lemma sync_uploads_what_was_read_witness :
  exists read,
    outcome (readLast24h (Connector.world ScreenScenario.android_phone)
               (last24h (ScreenScenario.app_on ScreenScenario.android_phone
                           Scenario.backend_inserts_3 raw)))
    = Ok read
    /\ samples read <> []
    /\ requests
         (trace (SettingsScreen.onSyncLast24h
                   (ScreenScenario.app_on ScreenScenario.android_phone
                      Scenario.backend_inserts_3 raw)))
       = [Sync.Post "/samples"
            {| Sync.user_id := "u1";
               Sync.storage_mode := raw;
               Sync.payload_samples := map wire_of (samples read) |}].
Proof.
  destruct (proj2 (sync_uploads_what_was_read
                     (ScreenScenario.app_on ScreenScenario.android_phone
                        Scenario.backend_inserts_3 raw))
              _ (or_introl eq_refl))
    as (read & Hread & _ & Hsamples & _ & _).
  exists read. split; [exact Hread |]. split; [exact Hsamples |].
  cbv in Hread. inversion Hread. reflexivity.
Defined.

(** X14.  A completed sync tells the user what the upload returned.
    With [n] samples read, all of them carrying valid dates, and a
    backend answering [inserted: i], the alert reads
    "Uploaded: i. Skipped: n - i."; in [local_only] mode, whatever the
    dates, it reads "Uploaded: 0. Skipped: n." and no request is made.
    When a sample read carries an invalid date and the mode is not
    [local_only], the sync does not complete: no request is made and the
    alert reads "Sync failed", with the message of the [RangeError]. *)
Theorem sync_reports_upload_counts
    (app : SettingsScreen.App) (read : HealthReadResult) :
  outcome (readLast24h (Connector.world (SettingsScreen.device app))
             (last24h app))
  = Ok read ->
  truthy_string (unavailable read) = false ->
  samples read <> [] ->
  let n := Z.of_nat (List.length (samples read)) in
  (SettingsScreen.storageMode app = local_only ->
   alerts (trace (SettingsScreen.onSyncLast24h app))
   = [("Sync complete"%string,
       ("Uploaded: 0. Skipped: " ++ SettingsScreen.show n ++ ".")%string)]
   /\ requests (trace (SettingsScreen.onSyncLast24h app)) = [])
  /\ (forall res,
         SettingsScreen.storageMode app <> local_only ->
         forallb dated (samples read) = true ->
         Sync.post (SettingsScreen.api app) "/samples"
           {| Sync.user_id := SettingsScreen.userId app;
              Sync.storage_mode := SettingsScreen.storageMode app;
              Sync.payload_samples := map wire_of (samples read) |}
         = Ok res ->
         alerts (trace (SettingsScreen.onSyncLast24h app))
         = [("Sync complete"%string,
             ("Uploaded: " ++ SettingsScreen.show (Sync.inserted res)
                ++ ". Skipped: "
                ++ SettingsScreen.show (n - Sync.inserted res) ++ ".")%string)])
  /\ (SettingsScreen.storageMode app <> local_only ->
      forallb dated (samples read) = false ->
      alerts (trace (SettingsScreen.onSyncLast24h app))
      = [("Sync failed"%string,
          (message RangeError ?? "Please try again."%string)%async)]
      /\ requests (trace (SettingsScreen.onSyncLast24h app)) = []).
Proof.
  intros Hread Hun Hsamples n.
  assert (Hlen : (List.length (samples read) =? 0)%nat = false).
  { destruct (samples read); [congruence | reflexivity]. }
  rewrite onSyncLast24h_alerts, onSyncLast24h_requests, sync_after_requests.
  rewrite Hread. unfold sync_after. rewrite Hun, Hlen.
  rewrite alerts_app, alerts_api. unfold upload_of.
  split; [| split].
  - intros Hmode.
    match goal with
    | |- context [Sync.uploadToBackend ?a ?o] =>
        rewrite (upload_local_only_run a o Hmode)
    end.
    split; reflexivity.
  - intros res Hmode Hdated Hres.
    match goal with
    | |- context [Sync.uploadToBackend ?a ?o] =>
        rewrite (upload_remote_run a o Hmode)
    end.
    cbn [Sync.userId Sync.storageMode Sync.opts_samples].
    rewrite (toIngestSamples_dated _ Hdated). cbv zeta.
    unfold outcome. cbn [snd]. rewrite Hres. reflexivity.
  - intros Hmode Hundated.
    match goal with
    | |- context [Sync.uploadToBackend ?a ?o] =>
        rewrite (upload_remote_run a o Hmode)
    end.
    cbn [Sync.userId Sync.storageMode Sync.opts_samples].
    rewrite (toIngestSamples_undated _ Hundated). split; reflexivity.
Qed.

Lemma sync_reports_upload_counts_witness :
  alerts
    (trace (SettingsScreen.onSyncLast24h
              (ScreenScenario.app_on ScreenScenario.android_phone
                 Scenario.backend_inserts_3 raw)))
  = [("Sync complete"%string, "Uploaded: 3. Skipped: 2."%string)]
  /\ alerts
       (trace (SettingsScreen.onSyncLast24h
                 (ScreenScenario.app_on ScreenScenario.iphone
                    Scenario.backend_down local_only)))
     = [("Sync complete"%string, "Uploaded: 0. Skipped: 2."%string)]
  /\ alerts
       (trace (SettingsScreen.onSyncLast24h
                 (ScreenScenario.app_on ScreenScenario.iphone_undated
                    Scenario.backend_inserts_3 raw)))
     = [("Sync failed"%string,
         (message RangeError ?? "Please try again."%string)%async)].
Proof.
  split; [| split].
  - exact (proj1 (proj2 (sync_reports_upload_counts
                           (ScreenScenario.app_on ScreenScenario.android_phone
                              Scenario.backend_inserts_3 raw)
                           _ eq_refl eq_refl ltac:(discriminate)))
             {| Sync.inserted := 3 |} ltac:(discriminate) eq_refl eq_refl).
  - exact (proj1 (proj1 (sync_reports_upload_counts
                           (ScreenScenario.app_on ScreenScenario.iphone
                              Scenario.backend_down local_only)
                           _ eq_refl eq_refl ltac:(discriminate))
                    eq_refl)).
  - exact (proj1 (proj2 (proj2 (sync_reports_upload_counts
                                  (ScreenScenario.app_on
                                     ScreenScenario.iphone_undated
                                     Scenario.backend_inserts_3 raw)
                                  _ eq_refl eq_refl ltac:(discriminate)))
                    ltac:(discriminate) eq_refl)).
Defined.

(** X15.  Whatever fails during a sync (the read or the upload) is
    shown as one "Sync failed" alert carrying the error's message, or
    "Please try again." when it has none, and does not escape the
    handler; after a failed read no request is made. *)
Theorem sync_failure_is_alerted (app : SettingsScreen.App) (e : Error) :
  outcome (readLast24h (Connector.world (SettingsScreen.device app))
             (last24h app))
  = Throw e
  \/ (exists read,
         outcome (readLast24h (Connector.world (SettingsScreen.device app))
                    (last24h app))
         = Ok read
         /\ truthy_string (unavailable read) = false
         /\ samples read <> []
         /\ outcome (upload_of app read) = Throw e) ->
  outcome (SettingsScreen.onSyncLast24h app) = Ok tt
  /\ alerts (trace (SettingsScreen.onSyncLast24h app))
     = [("Sync failed"%string, (message e ?? "Please try again."%string)%async)].
Proof.
  intros H. split; [rewrite onSyncLast24h_run; reflexivity |].
  rewrite onSyncLast24h_alerts.
  destruct H as [Hread | (read & Hread & Hun & Hsamples & Hup)];
    rewrite Hread; [reflexivity |].
  unfold sync_after. rewrite Hun.
  destruct (samples read) as [|s0 rest] eqn:Hs; [congruence |].
  cbn [List.length Nat.eqb].
  rewrite alerts_app, alerts_api, Hup. reflexivity.
Qed.

Lemma sync_failure_is_alerted_witness :
  alerts
    (trace (SettingsScreen.onSyncLast24h
              (ScreenScenario.app_on ScreenScenario.iphone_no_module
                 Scenario.backend_inserts_3 raw)))
  = [("Sync failed"%string, "Cannot find module"%string)]
  /\ alerts
       (trace (SettingsScreen.onSyncLast24h
                 (ScreenScenario.app_on ScreenScenario.iphone
                    Scenario.backend_down raw)))
     = [("Sync failed"%string, "Network Error"%string)].
Proof.
  split.
  - exact (proj2 (sync_failure_is_alerted
                    (ScreenScenario.app_on ScreenScenario.iphone_no_module
                       Scenario.backend_inserts_3 raw)
                    ProviderScenario.module_missing (or_introl eq_refl))).
  - refine (proj2 (sync_failure_is_alerted
                     (ScreenScenario.app_on ScreenScenario.iphone
                        Scenario.backend_down raw)
                     (mkError (Some "Network Error"%string))
                     (or_intror (ex_intro _ _ _)))).
    repeat split; try reflexivity. discriminate.
Defined.

(** X16.  On a platform without connector the screen's sync does
    nothing but tell so: the busy flag is raised, the alert
    "Unavailable / Unsupported platform" is shown, the flag is lowered;
    no native module is touched and nothing is uploaded. *)
Theorem sync_on_unsupported_platform (app : SettingsScreen.App) :
  OS (Connector.world (SettingsScreen.device app)) <> ios ->
  OS (Connector.world (SettingsScreen.device app)) <> android ->
  SettingsScreen.onSyncLast24h app
  = ([SettingsScreen.SetBusy true;
      SettingsScreen.Alert "Unavailable" "Unsupported platform";
      SettingsScreen.SetBusy false],
     Ok tt).
Proof.
  intros Hios Handroid.
  rewrite onSyncLast24h_run, readLast24h_unsupported by assumption.
  reflexivity.
Qed.

Lemma sync_on_unsupported_platform_witness :
  SettingsScreen.onSyncLast24h
    (ScreenScenario.app_on ScreenScenario.browser Scenario.backend_inserts_3
       raw)
  = ([SettingsScreen.SetBusy true;
      SettingsScreen.Alert "Unavailable" "Unsupported platform";
      SettingsScreen.SetBusy false],
     Ok tt).
Proof.
  apply sync_on_unsupported_platform; discriminate.
Defined.

(* --------------------------------------------------------------------- *)
(** ** Connecting and the status line *)
(* --------------------------------------------------------------------- *)

Lemma requestPermissions_settles (w : World) :
  exists r, outcome (requestPermissions w) = Ok r.
Proof.
  destruct (OS w) eqn:Hos.
  - destruct (import_health w) as [hk|e] eqn:Himp.
    + rewrite (requestPermissions_ios_run w hk Hos Himp). eexists; reflexivity.
    + rewrite (requestPermissions_import_fails w e (or_introl (conj Hos Himp))).
      eexists; reflexivity.
  - destruct (import_health_connect w) as [hc|e] eqn:Himp.
    + rewrite (requestPermissions_android_run w hc Hos Himp).
      eexists; reflexivity.
    + rewrite (requestPermissions_import_fails w e (or_intror (conj Hos Himp))).
      eexists; reflexivity.
  - rewrite requestPermissions_unsupported by congruence. eexists; reflexivity.
  - rewrite requestPermissions_unsupported by congruence. eexists; reflexivity.
  - rewrite requestPermissions_unsupported by congruence. eexists; reflexivity.
Qed.

Lemma statuses_app (a b : list SettingsScreen.Call) :
  statuses (a ++ b) = statuses a ++ statuses b.
Proof. apply flat_map_app. Qed.

Lemma statuses_provider (t : list HealthProvider.Call) :
  statuses (map SettingsScreen.Provider t) = [].
Proof. induction t; [reflexivity | exact IHt]. Qed.

Lemma statuses_status (t : list Connector.Call) :
  statuses (map SettingsScreen.Status t) = [].
Proof. induction t; [reflexivity | exact IHt]. Qed.

Section ConnectHandler.

Variable app : SettingsScreen.App.

Lemma refreshStatus_run (s : Connector.ConnectorStatus) :
  outcome (Connector.getConnectorStatus (SettingsScreen.device app)) = Ok s ->
  SettingsScreen.refreshStatus app
  = (map SettingsScreen.Status
       (trace (Connector.getConnectorStatus (SettingsScreen.device app)))
       ++ [SettingsScreen.SetConnectorStatus (SettingsScreen.status_text s)],
     Ok tt).
Proof.
  unfold SettingsScreen.refreshStatus, SettingsScreen.lift, outcome, trace.
  destruct (Connector.getConnectorStatus (SettingsScreen.device app))
    as [t settled].
  cbn [fst snd]. intros ->. reflexivity.
Qed.

Lemma onConnect_run (r : PermissionResult) :
  outcome (requestPermissions (Connector.world (SettingsScreen.device app)))
  = Ok r ->
  SettingsScreen.onConnect app
  = (SettingsScreen.SetBusy true
       :: map SettingsScreen.Provider
            (trace (requestPermissions
                      (Connector.world (SettingsScreen.device app))))
       ++ (if granted r
           then SettingsScreen.Alert "Connected" "Permissions granted."
                  :: trace (SettingsScreen.refreshStatus app)
           else [SettingsScreen.Alert "Permissions not granted"
                   (reason r ?? ""%string)%async])
       ++ [SettingsScreen.SetBusy false],
     Ok tt).
Proof.
  destruct (getConnectorStatus_settles (SettingsScreen.device app)) as [s Hs].
  unfold SettingsScreen.onConnect. rewrite (refreshStatus_run s Hs).
  unfold SettingsScreen.lift, outcome, trace.
  destruct (requestPermissions _) as [t settled]. cbn [fst snd].
  intros ->. cbn.
  destruct (granted r); cbn;
    repeat (rewrite <- app_comm_cons || rewrite <- app_assoc); reflexivity.
Qed.

End ConnectHandler.

Lemma unavailable_text_not_native (reason : string) :
  SettingsScreen.isNative
    (SettingsScreen.status_text (Connector.Unavailable reason))
  = false.
Proof. reflexivity. Qed.

(** X17.  The status line and the [isNative] flag derived from it agree
    with the probe: [refreshStatus] stores one status text, and that text
    starts with "Available" exactly when the connector is available, for
    every reason text an unavailable connector may carry. *)
Theorem native_flag_tracks_availability (app : SettingsScreen.App) :
  exists s,
    outcome (Connector.getConnectorStatus (SettingsScreen.device app)) = Ok s
    /\ outcome (SettingsScreen.refreshStatus app) = Ok tt
    /\ statuses (trace (SettingsScreen.refreshStatus app))
       = [SettingsScreen.status_text s]
    /\ (SettingsScreen.isNative (SettingsScreen.status_text s) = true
        <-> s = Connector.Available).
Proof.
  destruct (getConnectorStatus_settles (SettingsScreen.device app)) as [s Hs].
  exists s. split; [exact Hs |].
  rewrite (refreshStatus_run app s Hs).
  split; [reflexivity |]. split.
  - unfold trace. cbn [fst]. rewrite statuses_app, statuses_status. reflexivity.
  - destruct s as [|reason].
    + split; reflexivity.
    + rewrite unavailable_text_not_native. split; discriminate.
Qed.

(** X18.  Connecting never throws to the screen.  The busy flag is
    raised first and lowered last; one alert is shown, "Connected" when
    permissions were granted and "Permissions not granted" with the
    reason (or an empty body when there is none) otherwise; the status
    line is refreshed exactly when permissions were granted. *)
Theorem connect_alerts_and_refreshes (app : SettingsScreen.App) :
  exists r mid,
    outcome (requestPermissions (Connector.world (SettingsScreen.device app)))
    = Ok r
    /\ SettingsScreen.onConnect app
       = (SettingsScreen.SetBusy true :: mid ++ [SettingsScreen.SetBusy false],
          Ok tt)
    /\ alerts mid
       = [if granted r
          then ("Connected"%string, "Permissions granted."%string)
          else ("Permissions not granted"%string,
                (reason r ?? ""%string)%async)]
    /\ (statuses mid <> [] <-> granted r = true).
Proof.
  destruct (requestPermissions_settles
              (Connector.world (SettingsScreen.device app))) as [r Hr].
  destruct (getConnectorStatus_settles (SettingsScreen.device app)) as [s Hs].
  exists r. eexists. split; [exact Hr |].
  rewrite (onConnect_run app r Hr). split.
  - unfold trace. rewrite app_assoc. reflexivity.
  - rewrite alerts_app, alerts_provider, statuses_app, statuses_provider.
    rewrite (refreshStatus_run app s Hs).
    destruct (granted r).
    + unfold trace. cbn [fst].
      change (SettingsScreen.Alert ?a ?b :: ?l)
        with ([SettingsScreen.Alert a b] ++ l).
      rewrite !alerts_app, alerts_status, !statuses_app, statuses_status.
      split; [reflexivity |]. cbn. split; [reflexivity | discriminate].
    + split; [reflexivity |]. cbn. split; [congruence | discriminate].
Qed.

(* ===================================================================== *)
(** * Properties of the manual entry screen *)
(* ===================================================================== *)






(** At 22:13:32.345 the minute printed is 22:13. *)
Example iso_now_22_13 :
  AddScreen.isoNowLocalMinute ScreenScenario.add_env
  = Ok "2023-11-14T22:13:00.000Z"%string.
Proof. reflexivity. Qed.
